(** * RapidResponse: the intake pipeline, the emergency store and the
    notification service, embedded from the Python sources.

  - [services/classification/emergency_classifier.py]
  - [services/translation/translation_service.py]
  - [services/data_collection/apify_service.py]
  - [services/notification/notification_service.py]
  - [services/emergency_coordinator.py]
  - [database/models.py], [main.py]

  Python floats are IEEE binary64 numbers and are modelled by Rocq's
  primitive floats; dictionaries keyed by [str] are finite maps. *)

From Stdlib Require Import ZArith Floats Lia Ascii.
From stdpp Require Import base option gmap strings list sorting.

Set Warnings "-inexact-float,-register-all".

Local Open Scope Z_scope.
Local Open Scope string_scope.

(** ** Python values and exceptions *)

Module Py.

(** The JSON-like values that travel between the stages. *)
Inductive pyval :=
| PyNone
| PyBool (b : bool)
| PyInt (z : Z)
| PyFloat (f : float)
| PyStr (s : string)
| PyList (l : list pyval)
| PyDict (d : gmap string pyval).

Definition bytes := list Byte.byte.

(** Exceptions raised in the sources and by the libraries under them;
    every one derives from [Exception], so [except Exception] catches all of
    them. [StatementError] is SQLAlchemy's class for a statement that could
    not be executed with its parameters; the driver's refusal of a parameter
    (a [ProgrammingError]) is of that class too. *)
Inductive exn :=
| Exception (msg : string)
| HTTPException (status_code : Z) (detail : string)
| KeyError (key : string)
| TypeError
| IntegrityError
| StatementError
| ValueError
| OverflowError.

Definition result (A : Type) : Type := exn + A.

(** [d[k]] *)
Definition getitem (d : pyval) (k : string) : result pyval :=
  match d with
  | PyDict m => match m !! k with
                | Some v => inr v
                | None => inl (KeyError k)
                end
  | _ => inl TypeError
  end.

(** Truth value of an object in a condition ([if x:], [not x]). *)
Definition truthy (v : pyval) : bool :=
  match v with
  | PyNone => false
  | PyBool b => b
  | PyInt z => negb (z =? 0)%Z
  | PyFloat f => negb (f =? 0)%float
  | PyStr s => negb (String.eqb s "")
  | PyList l => match l with [] => false | _ => true end
  | PyDict d => negb (bool_decide (d = ∅))
  end.

(** Truth value of an [Optional[str]] and of an [Optional[bytes]]. *)
Definition truthy_str (s : option string) : bool :=
  match s with
  | None => false
  | Some s => negb (String.eqb s "")
  end.

Definition truthy_bytes (b : option bytes) : bool :=
  match b with
  | None | Some [] => false
  | Some (_ :: _) => true
  end.

Definition of_option {A} (f : A -> pyval) (o : option A) : pyval :=
  match o with
  | None => PyNone
  | Some a => f a
  end.

(** [str.lower] on the ASCII range; no other character lowers to a letter
    of "en", the only string a lowered language code is compared with. *)
Definition lower_ascii (c : Ascii.ascii) : Ascii.ascii :=
  let n := Ascii.N_of_ascii c in
  if ((65 <=? n) && (n <=? 90))%N then Ascii.ascii_of_N (n + 32) else c.

Fixpoint lower (s : string) : string :=
  match s with
  | EmptyString => EmptyString
  | String c s' => String (lower_ascii c) (lower s')
  end.

(** An [int] as an exact binary floating-point number, before rounding. *)
Definition Z2SF (z : Z) : spec_float :=
  match z with
  | Z0 => S754_zero false
  | Zpos m => S754_finite false m 0
  | Zneg m => S754_finite true m 0
  end.

(** [a / b] for two ints, [b] not zero: the quotient correctly rounded to
    binary64, whatever the size of the operands. *)
Definition int_true_divide (a b : Z) : float :=
  SF2Prim (SFdiv prec emax (Z2SF a) (Z2SF b)).

(** [int(f)]: truncation toward zero; [nan] and the infinities have no
    integer. *)
Definition int_of_float (f : float) : result Z :=
  match Prim2SF f with
  | S754_zero _ => inr 0
  | S754_finite s m e =>
      let magnitude :=
        if (0 <=? e)%Z then Z.pos m * 2 ^ e else Z.pos m / 2 ^ (- e) in
      inr (if s then - magnitude else magnitude)
  | S754_infinity _ => inl OverflowError
  | S754_nan => inl ValueError
  end.

End Py.
Import Py.

(** ** services/classification/emergency_classifier.py *)

Module EmergencyClassifier.

(** The dictionary [classify] returns. *)
Record Classification := mkClassification {
  c_type : string;
  c_confidence : float;
  c_priority : string
}.

(** [classify]: the body returns the same classification for every
    text and cannot raise. *)
Definition classify (text : string) : result Classification :=
  inr (mkClassification "FIRE" 0.95%float "HIGH").

(** [get_required_services] *)
Definition get_required_services
    (emergency_type : string) (confidence : float) : gmap string bool :=
  let services : gmap string bool :=
    {[ "fire" := false; "medical" := false;
       "police" := false; "rescue" := false ]} in
  let services :=
    if String.eqb emergency_type "FIRE" then
      <["fire" := true]> services
    else if String.eqb emergency_type "MEDICAL" then
      <["medical" := true]> services
    else if String.eqb emergency_type "CRIME" then
      <["police" := true]> services
    else if String.eqb emergency_type "NATURAL_DISASTER" then
      <["medical" := true]> (<["fire" := true]> (<["rescue" := true]> services))
    else if String.eqb emergency_type "TRAFFIC" then
      <["medical" := true]> (<["police" := true]> services)
    else services in
  if (0.8 <? confidence)%float then
    if String.eqb emergency_type "FIRE" then
      <["medical" := true]> (<["rescue" := true]> services)
    else if String.eqb emergency_type "MEDICAL" then
      <["rescue" := true]> services
    else if String.eqb emergency_type "CRIME" then
      <["medical" := true]> services
    else services
  else services.

End EmergencyClassifier.

(** ** The resolver as the specification words it *)

Module ResolverSpec.

Definition service_keys : list string := ["fire"; "medical"; "police"; "rescue"].

(** Base rule table. *)
Definition base (emergency_type : string) : gset string :=
  if String.eqb emergency_type "FIRE" then {[ "fire" ]}
  else if String.eqb emergency_type "MEDICAL" then {[ "medical" ]}
  else if String.eqb emergency_type "CRIME" then {[ "police" ]}
  else if String.eqb emergency_type "NATURAL_DISASTER" then
    {[ "rescue"; "fire"; "medical" ]}
  else if String.eqb emergency_type "TRAFFIC" then {[ "police"; "medical" ]}
  else ∅.

(** Services added when the confidence exceeds 0.8. *)
Definition escalation (emergency_type : string) : gset string :=
  if String.eqb emergency_type "FIRE" then {[ "rescue"; "medical" ]}
  else if String.eqb emergency_type "MEDICAL" then {[ "rescue" ]}
  else if String.eqb emergency_type "CRIME" then {[ "medical" ]}
  else ∅.

Definition enabled (emergency_type : string) (confidence : float) : gset string :=
  base emergency_type ∪
    (if (0.8 <? confidence)%float then escalation emergency_type else ∅).

(** The fixed-key boolean map of a set of enabled services. *)
Definition as_map (on : gset string) : gmap string bool :=
  list_to_map ((fun k => (k, bool_decide (k ∈ on))) <$> service_keys).

End ResolverSpec.

(** ** database/models.py *)

Module Models.

(** Primary keys are 128-bit UUIDs. *)
Definition UUID := N.

(** A naive UTC [datetime], in microseconds since the epoch. *)
Definition datetime := Z.

Inductive EmergencyStatus := ACTIVE | RESOLVED | CANCELLED.

#[global] Instance EmergencyStatus_eq_dec : EqDecision EmergencyStatus.
Proof. solve_decision. Defined.

(** [EmergencyStatus] is a [str] enumeration: the value of a member. *)
Definition status_value (s : EmergencyStatus) : string :=
  match s with
  | ACTIVE => "ACTIVE"
  | RESOLVED => "RESOLVED"
  | CANCELLED => "CANCELLED"
  end.

(** A row of each table; the primary key [id] is the key under which the
    table holds the row. The [String] and [JSON] columns hold the Python
    value that was assigned to them; a [DateTime] column holds a datetime or
    is null. *)
Module Emergency.
Record t := mk {
  emergency_type : pyval;
  priority_level : pyval;
  status : string;
  location_lat : option float;
  location_lon : option float;
  response_plan : pyval;
  estimated_response_time : option datetime;
  actual_response_time : option datetime;
  notes : option string;
  (* server defaults: unset until the row is inserted *)
  created_at : option datetime;
  updated_at : option datetime
}.
End Emergency.

Module EmergencyStatusUpdate.
Record t := mk {
  emergency_id : UUID;
  old_status : EmergencyStatus;
  new_status : EmergencyStatus;
  notes : option string;
  created_at : datetime
}.
End EmergencyStatusUpdate.

Module Notification.
Record t := mk {
  emergency_id : option UUID;
  recipient_type : string;
  recipient_id : string;
  message : string;
  status : string;
  created_at : datetime;
  sent_at : option datetime;
  delivered_at : option datetime
}.
End Notification.

Module NotificationSubscription.
Record t := mk {
  subscriber_type : string;
  subscriber_id : string;
  notification_type : string;
  channel : string;
  (* column default: unset until the row is inserted *)
  created_at : option datetime
}.
End NotificationSubscription.

(** The committed tables. *)
Record Database := mkDatabase {
  emergencies : gmap UUID Emergency.t;
  emergency_status_updates : gmap UUID EmergencyStatusUpdate.t;
  notifications : gmap UUID Notification.t;
  notification_subscriptions : gmap UUID NotificationSubscription.t
}.

Definition empty_db : Database := mkDatabase ∅ ∅ ∅ ∅.

(** What a session holds between [add] or an attribute write and
    [commit]. A loaded emergency that was written to is held with its
    columns as assigned and, apart, with the Python value that was assigned
    to its attribute [actual_response_time], if any: an attribute takes any
    value, and only the statement of the flush meets the column's type. *)
Inductive pending :=
| NewEmergency (id : UUID) (e : Emergency.t)
| NewSubscription (s : NotificationSubscription.t)
| DirtyEmergency (id : UUID) (e : Emergency.t)
                 (actual_response_time : option pyval).

End Models.
Import Models.

(** ** The world the handlers run in *)

Module Runtime.

(** The providers behind the service objects the coordinator holds. *)
Record Transcription := mkTranscription {
  t_text : string;
  t_language : string;
  t_duration : float
}.

Record LanguageDetection := mkLanguageDetection {
  l_language : string;
  l_confidence : float
}.

Record Translation := mkTranslation {
  translated_text : string;
  detected_language : string;
  source_language : string;
  target_language : string
}.

Record Services := mkServices {
  (* SpeechService.transcribe *)
  transcribe : bytes -> result Transcription;
  (* TranslationService.detect_language, TranslationService.translate *)
  detect_language : string -> result LanguageDetection;
  translate : string -> result Translation;
  (* EmergencyClassifier.classify *)
  classify : string -> result EmergencyClassifier.Classification;
  (* ApifyClient.actor(name).call(run_input=...) *)
  actor_call : string -> pyval -> result pyval
}.

(** Library functions and the sources of time and identifiers. *)
Record Library := mkLibrary {
  py_str : exn -> string;                (* str(e) *)
  py_format : pyval -> string;           (* f"{value}" *)
  json_dumps : pyval -> result string;   (* json.dumps *)
  uuid_str : UUID -> string;             (* str(uuid) *)
  clock : nat -> datetime;               (* the n-th reading of the clock *)
  uuid_source : nat -> UUID              (* the n-th uuid4() *)
}.

Inductive Call :=
| CallTranscribe (audio : bytes)
| CallDetectLanguage (text : string)
| CallTranslate (text : string)
| CallClassify (text : string)
| CallActor (actor : string) (run_input : pyval).

Record World := mkWorld {
  db : Database;
  session : list pending;
  stdout : list string;
  log : list (string * string);
  calls : list Call;
  ticks : nat;
  draws : nat
}.

Definition set_db (d : Database) (w : World) : World :=
  mkWorld d (session w) (stdout w) (log w) (calls w) (ticks w) (draws w).

Definition set_session (s : list pending) (w : World) : World :=
  mkWorld (db w) s (stdout w) (log w) (calls w) (ticks w) (draws w).

(** Computations: a result or an exception, and the world afterwards. *)
Definition M (A : Type) : Type := World -> result A * World.

#[global] Instance M_ret : MRet M := fun A a w => (inr a, w).

#[global] Instance M_bind : MBind M := fun A B f m w =>
  match m w with
  | (inr a, w') => f a w'
  | (inl e, w') => (inl e, w')
  end.

Definition raise {A} (e : exn) : M A := fun w => (inl e, w).

Definition lift {A} (r : result A) : M A := fun w => (r, w).

(** [try: body  except Exception as e: handler(e)] *)
Definition try_except {A} (body : M A) (handler : exn -> M A) : M A := fun w =>
  match body w with
  | (inr a, w') => (inr a, w')
  | (inl e, w') => handler e w'
  end.

Definition print (line : string) : M unit := fun w =>
  (inr tt, mkWorld (db w) (session w) (stdout w ++ [line]) (log w) (calls w)
                   (ticks w) (draws w)).

Definition logger (level msg : string) : M unit := fun w =>
  (inr tt, mkWorld (db w) (session w) (stdout w) (log w ++ [(level, msg)])
                   (calls w) (ticks w) (draws w)).

Definition record_call (c : Call) : M unit := fun w =>
  (inr tt, mkWorld (db w) (session w) (stdout w) (log w) (calls w ++ [c])
                   (ticks w) (draws w)).

(** [datetime.utcnow()] and the database's [now()]. *)
Definition utcnow (lib : Library) : M datetime := fun w =>
  (inr (clock lib (ticks w)),
   mkWorld (db w) (session w) (stdout w) (log w) (calls w) (S (ticks w)) (draws w)).

Definition uuid4 (lib : Library) : M UUID := fun w =>
  (inr (uuid_source lib (draws w)),
   mkWorld (db w) (session w) (stdout w) (log w) (calls w) (ticks w) (S (draws w))).

End Runtime.
Import Runtime.

(** ** services/speech/speech_service.py *)

Module SpeechService.

Definition mock_transcription : Transcription :=
  mkTranscription
    "Help! There is a medical emergency at Central Park. Someone has collapsed and is not breathing."
    "en" 5.0%float.

(** [transcribe]: in test mode the mock transcription; otherwise the
    Whisper model, when one is loaded, run on the audio. Every exception is
    raised again, wrapped. *)
Definition transcribe (lib : Library) (test_mode : bool)
    (model : option (bytes -> result Transcription)) (audio_data : bytes)
    : result Transcription :=
  match (if test_mode then inr mock_transcription
         else match model with
              | None => inl (Exception "Whisper model not initialized")
              | Some whisper => whisper audio_data
              end) with
  | inr transcription => inr transcription
  | inl e => inl (Exception ("Failed to transcribe audio: " ++ py_str lib e))
  end.

End SpeechService.

(** ** The SQLAlchemy session (database/connection.py) *)

Module Session.

(** [db.add(obj)] and attribute writes on a loaded object. *)
Definition add (p : pending) : M unit := fun w =>
  (inr tt, set_session (session w ++ [p]) w).

(** [db.query(Emergency).filter(Emergency.id == key).first()] *)
Definition query_emergency (key : UUID) : M (option Emergency.t) := fun w =>
  (inr (emergencies (db w) !! key), w).

Definition put_emergency (key : UUID) (e : Emergency.t) (d : Database)
    : Database :=
  mkDatabase (<[key := e]> (emergencies d))
             (emergency_status_updates d) (notifications d)
             (notification_subscriptions d).

Definition put_subscription (k : UUID) (s : NotificationSubscription.t)
    (d : Database) : Database :=
  mkDatabase (emergencies d) (emergency_status_updates d) (notifications d)
             (<[k := s]> (notification_subscriptions d)).

(** [INSERT INTO emergencies]: fills the columns that have a server
    default and fails on a primary key that is already present. *)
Definition insert_emergency (key : UUID) (now : datetime) (e : Emergency.t)
    : M unit := fun w =>
  match emergencies (db w) !! key with
  | Some _ => (inl IntegrityError, w)
  | None =>
      let row :=
        Emergency.mk (Emergency.emergency_type e)
          (Emergency.priority_level e) (Emergency.status e)
          (Emergency.location_lat e) (Emergency.location_lon e)
          (Emergency.response_plan e)
          (Emergency.estimated_response_time e)
          (Emergency.actual_response_time e) (Emergency.notes e)
          (Some now) (Some now) in
      (inr tt, set_db (put_emergency key row (db w)) w)
  end.

(** [INSERT INTO notification_subscriptions] *)
Definition insert_subscription (key : UUID) (now : datetime)
    (s : NotificationSubscription.t) : M unit := fun w =>
  match notification_subscriptions (db w) !! key with
  | Some _ => (inl IntegrityError, w)
  | None =>
      let row :=
        NotificationSubscription.mk
          (NotificationSubscription.subscriber_type s)
          (NotificationSubscription.subscriber_id s)
          (NotificationSubscription.notification_type s)
          (NotificationSubscription.channel s) (Some now) in
      (inr tt, set_db (put_subscription key row (db w)) w)
  end.

(** A Python value as the parameter of a [DateTime] column
    ([actual_response_time = Column(DateTime)]): the column takes [None];
    the values of [pyval], among them the [int] that [update_emergency]
    assigns, are no datetimes, and the statement is refused with them
    (PostgreSQL casts no integer to a timestamp, and the SQLite dialect's
    [DateTime] accepts datetime objects only). *)
Definition bind_datetime (v : pyval) : result (option datetime) :=
  match v with
  | PyNone => inr None
  | _ => inl StatementError
  end.

Definition set_actual_response_time (t : option datetime) (e : Emergency.t)
    : Emergency.t :=
  Emergency.mk (Emergency.emergency_type e)
    (Emergency.priority_level e) (Emergency.status e)
    (Emergency.location_lat e) (Emergency.location_lon e)
    (Emergency.response_plan e) (Emergency.estimated_response_time e)
    t (Emergency.notes e)
    (Emergency.created_at e) (Emergency.updated_at e).

(** [UPDATE emergencies SET ... WHERE id = ...] with the attributes that
    were written. *)
Definition update_emergency_row (key : UUID) (e : Emergency.t)
    (actual_response_time : option pyval) : M unit := fun w =>
  match actual_response_time with
  | None => (inr tt, set_db (put_emergency key e (db w)) w)
  | Some v =>
      match bind_datetime v with
      | inr t =>
          (inr tt,
           set_db (put_emergency key (set_actual_response_time t e) (db w)) w)
      | inl err => (inl err, w)
      end
  end.

(** One statement of the flush. *)
Definition flush_one (lib : Library) (p : pending) : M unit :=
  match p with
  | NewEmergency key e =>
      now ← utcnow lib;
      insert_emergency key now e
  | NewSubscription s =>
      key ← uuid4 lib;
      now ← utcnow lib;
      insert_subscription key now s
  | DirtyEmergency key e actual_response_time =>
      update_emergency_row key e actual_response_time
  end.

Fixpoint flush (lib : Library) (ps : list pending) : M unit :=
  match ps with
  | [] => mret tt
  | p :: ps' => flush_one lib p;; flush lib ps'
  end.

(** [db.commit()]: the pending changes are written in one transaction;
    when a statement fails nothing of the transaction is kept. *)
Definition commit (lib : Library) : M unit := fun w =>
  match flush lib (session w) w with
  | (inr _, w') => (inr tt, set_session [] w')
  | (inl e, w') => (inl e, set_db (db w) w')
  end.

(** [db.rollback()] *)
Definition rollback : M unit := fun w => (inr tt, set_session [] w).

(** [Depends(get_db)]: a fresh session for the request, closed after it. *)
Definition get_db {A} (handler : M A) : M A := fun w =>
  match handler (set_session [] w) with
  | (r, w') => (r, set_session [] w')
  end.

End Session.

(** ** services/translation/translation_service.py *)

Module TranslationService.

(** [is_translation_needed] *)
Definition is_translation_needed (detected_language : string) : bool :=
  negb (String.eqb (lower detected_language) "en").

End TranslationService.

(** ** The service objects as the coordinator calls them *)

Module Provider.

Definition transcribe (svc : Services) (audio : bytes) : M Transcription :=
  record_call (CallTranscribe audio);; lift (Runtime.transcribe svc audio).

Definition detect_language (svc : Services) (text : string) : M LanguageDetection :=
  record_call (CallDetectLanguage text);; lift (Runtime.detect_language svc text).

Definition translate (svc : Services) (text : string) : M Translation :=
  record_call (CallTranslate text);; lift (Runtime.translate svc text).

Definition classify (svc : Services) (text : string)
    : M EmergencyClassifier.Classification :=
  record_call (CallClassify text);; lift (Runtime.classify svc text).

Definition actor_call (svc : Services) (actor : string) (run_input : pyval)
    : M pyval :=
  record_call (CallActor actor run_input);;
  lift (Runtime.actor_call svc actor run_input).

End Provider.

(** ** services/data_collection/apify_service.py *)

Module ApifyDataCollector.

Section Collector.

Variable svc : Services.
Variable lib : Library.

Definition weather_default : pyval :=
  PyDict {[ "temperature" := PyNone; "conditions" := PyStr "unknown";
            "wind_speed" := PyNone; "visibility" := PyNone ]}.

Definition traffic_default : pyval :=
  PyDict {[ "congestion_level" := PyStr "unknown"; "average_speed" := PyNone;
            "incidents" := PyList [] ]}.

(** [_get_weather_data] *)
Definition _get_weather_data (location : pyval) : M pyval :=
  try_except
    (lat ← lift (getitem location "lat");
     lon ← lift (getitem location "lon");
     run ← Provider.actor_call svc "apify/weather"
             (PyDict {[ "lat" := lat; "lon" := lon ]});
     data ← lift (getitem run "data");
     temperature ← lift (getitem data "temperature");
     conditions ← lift (getitem data "conditions");
     wind_speed ← lift (getitem data "windSpeed");
     visibility ← lift (getitem data "visibility");
     mret (PyDict {[ "temperature" := temperature; "conditions" := conditions;
                     "wind_speed" := wind_speed; "visibility" := visibility ]}))
    (fun _ => mret weather_default).

(** [_get_traffic_data] *)
Definition _get_traffic_data (location : pyval) : M pyval :=
  try_except
    (lat ← lift (getitem location "lat");
     lon ← lift (getitem location "lon");
     run ← Provider.actor_call svc "apify/traffic"
             (PyDict {[ "lat" := lat; "lon" := lon; "radius" := PyInt 2000 ]});
     data ← lift (getitem run "data");
     congestion_level ← lift (getitem data "congestionLevel");
     average_speed ← lift (getitem data "averageSpeed");
     incidents ← lift (getitem data "incidents");
     mret (PyDict {[ "congestion_level" := congestion_level;
                     "average_speed" := average_speed;
                     "incidents" := incidents ]}))
    (fun _ => mret traffic_default).

(** [_get_hospitals], [_get_fire_stations] and [_get_police_stations]
    differ in the actor they call. *)
Definition _get_stations (actor : string) (location : pyval) : M pyval :=
  try_except
    (lat ← lift (getitem location "lat");
     lon ← lift (getitem location "lon");
     run ← Provider.actor_call svc actor
             (PyDict {[ "lat" := lat; "lon" := lon; "radius" := PyInt 5000 ]});
     lift (getitem run "data"))
    (fun _ => mret (PyList [])).

Definition _get_hospitals := _get_stations "apify/hospitals".
Definition _get_fire_stations := _get_stations "apify/fire-stations".
Definition _get_police_stations := _get_stations "apify/police-stations".

(** [_get_facilities_data] *)
Definition _get_facilities_data (location : pyval) (emergency_type : string)
    : M (gmap string pyval) :=
  try_except
    (if String.eqb emergency_type "MEDICAL" then
       hospitals ← _get_hospitals location;
       mret {[ "hospitals" := hospitals ]}
     else if String.eqb emergency_type "FIRE" then
       fire_stations ← _get_fire_stations location;
       mret {[ "fire_stations" := fire_stations ]}
     else if String.eqb emergency_type "POLICE" then
       police_stations ← _get_police_stations location;
       mret {[ "police_stations" := police_stations ]}
     else mret ∅)
    (fun _ => mret ∅).

(** [get_emergency_context]: the three coroutines never suspend, so
    [asyncio.gather] runs them one after the other, in this order. *)
Definition get_emergency_context (location : pyval) (emergency_type : string)
    : M pyval :=
  try_except
    (weather ← _get_weather_data location;
     traffic ← _get_traffic_data location;
     facilities ← _get_facilities_data location emergency_type;
     (* {"weather": .., "traffic": .., **facilities}: later keys win *)
     mret (PyDict (facilities ∪ {[ "weather" := weather; "traffic" := traffic ]})))
    (fun e => raise (Exception ("Failed to get emergency context: " ++ py_str lib e))).

End Collector.

End ApifyDataCollector.

(** ** services/notification/notification_service.py *)

Module NotificationService.

(** [send_notification] *)
Definition send_notification (lib : Library) (channel : string) (data : pyval)
    : M bool :=
  try_except
    (text ← lift (json_dumps lib data);
     print ("Sending notification to " ++ channel ++ ": " ++ text);;
     mret true)
    (fun e =>
       print ("Failed to send notification: " ++ py_str lib e);;
       mret false).

(** [get_notifications] *)
Definition get_notifications (channel : string) : M (list pyval) :=
  try_except (mret []) (fun _ => mret []).

End NotificationService.

(** ** services/emergency_coordinator.py *)

Module EmergencyCoordinator.

Section Coordinator.

Variable svc : Services.
Variable lib : Library.

(** [process_emergency] *)
Definition process_emergency (text : option string) (audio : option bytes)
    (location : option pyval) : M pyval :=
  try_except
    ((* Convert audio to text if provided *)
     text ← (if truthy_bytes audio && negb (truthy_str text) then
               transcription_result ← Provider.transcribe svc (default [] audio);
               mret (Some (t_text transcription_result))
             else mret text);
     (if negb (truthy_str text) then raise (Exception "No text input provided")
      else mret tt);;
     let text := default "" text in
     (* Detect language and translate if needed *)
     lang_result ← Provider.detect_language svc text;
     text ← (if TranslationService.is_translation_needed (l_language lang_result) then
               translation ← Provider.translate svc text;
               mret (translated_text translation)
             else mret text);
     (* Classify emergency *)
     classification ← Provider.classify svc text;
     (* Get required services *)
     let required_services :=
       EmergencyClassifier.get_required_services
         (EmergencyClassifier.c_type classification)
         (EmergencyClassifier.c_confidence classification) in
     (* Get contextual data if location provided *)
     context ← (if truthy (of_option id location) then
                  ApifyDataCollector.get_emergency_context svc lib
                    (of_option id location)
                    (EmergencyClassifier.c_type classification)
                else mret PyNone);
     mret (PyDict
       {[ "type" := PyStr (EmergencyClassifier.c_type classification);
          "priority" := PyStr (EmergencyClassifier.c_priority classification);
          "details" := PyDict
            {[ "original_text" := PyStr text;
               "location" := of_option id location;
               "confidence" := PyFloat (EmergencyClassifier.c_confidence classification);
               "required_services" := PyDict (PyBool <$> required_services);
               "context" := context ]} ]}))
    (fun e => raise (Exception ("Failed to process emergency: " ++ py_str lib e))).

End Coordinator.

End EmergencyCoordinator.

(** ** main.py *)

Module Main.

(** An uploaded file; [read] returns its content. *)
Record UploadFile := mkUploadFile { filename : string; read : bytes }.

(** The request body of the update endpoint. *)
Record EmergencyUpdate := mkEmergencyUpdate {
  u_status : EmergencyStatus;
  u_notes : option string
}.

Record NotificationSubscriptionCreate := mkNotificationSubscriptionCreate {
  sc_subscriber_type : string;
  sc_subscriber_id : string;
  sc_notification_type : string;
  sc_channel : string
}.

(** [int((now - created_at).total_seconds() / 60)]: the difference of two
    datetimes is exact to the microsecond; [total_seconds] divides the
    microseconds by [10**6], two ints, which gives the quotient correctly
    rounded to binary64; the division by 60 is a binary64 division, and
    [int] truncates toward zero. *)
Definition elapsed_minutes (now created : datetime) : result Z :=
  int_of_float (int_true_divide (now - created) 1000000 / 60)%float.

(** [**mapping] inside a dictionary display. *)
Definition unpack (v : pyval) : result (gmap string pyval) :=
  match v with
  | PyDict d => inr d
  | _ => inl TypeError
  end.

Section Handlers.

Variable svc : Services.
Variable lib : Library.

(** [POST /emergency/report] *)
Definition report_emergency (audio : option UploadFile) (text : option string)
    (lat lon : option float) : M pyval :=
  Session.get_db
    (try_except
       (logger "INFO" "Received new emergency report";;
        (if negb (bool_decide (is_Some audio)) && negb (truthy_str text) then
           raise (HTTPException 400 "Either audio or text must be provided")
         else mret tt);;
        (* Read audio file if provided *)
        let audio_data := read <$> audio in
        (* Create location dict if coordinates provided *)
        let location :=
          match lat, lon with
          | Some lat, Some lon =>
              Some (PyDict {[ "lat" := PyFloat lat; "lon" := PyFloat lon ]})
          | _, _ => None
          end in
        (* Process emergency through coordinator *)
        logger "INFO" "Processing emergency with coordinator...";;
        response ← EmergencyCoordinator.process_emergency svc lib
                     text audio_data location;
        logger "INFO" ("Coordinator response: " ++ py_format lib response);;
        (* Create emergency record *)
        logger "INFO" "Creating emergency record in database...";;
        key ← uuid4 lib;
        emergency_type ← lift (getitem response "type");
        priority_level ← lift (getitem response "priority");
        let emergency :=
          Emergency.mk emergency_type priority_level "ACTIVE" lat lon
            response None None None None None in
        Session.add (NewEmergency key emergency);;
        Session.commit lib;;
        logger "INFO" "Emergency record created successfully";;
        (* Send notifications *)
        logger "INFO" "Sending notifications...";;
        fields ← lift (unpack response);
        NotificationService.send_notification lib "emergency"
          (PyDict (fields ∪ {[ "emergency_id" := PyStr (uuid_str lib key) ]}));;
        logger "INFO" "Notifications sent";;
        emergency_type ← lift (getitem response "type");
        priority_level ← lift (getitem response "priority");
        mret (PyDict {[ "emergency_type" := emergency_type;
                        "priority_level" := priority_level;
                        "response_plan" := response;
                        "estimated_response_time" := PyNone ]}))
       (fun e =>
          logger "ERROR" ("Error processing emergency report: " ++ py_str lib e);;
          Session.rollback;;
          raise (HTTPException 500 (py_str lib e)))).

(** The attribute writes of [update_emergency] on the loaded row. *)
Definition with_status (status : string) (notes : option string)
    (e : Emergency.t) : Emergency.t :=
  Emergency.mk (Emergency.emergency_type e)
    (Emergency.priority_level e) status
    (Emergency.location_lat e) (Emergency.location_lon e)
    (Emergency.response_plan e) (Emergency.estimated_response_time e)
    (Emergency.actual_response_time e) notes
    (Emergency.created_at e) (Emergency.updated_at e).

Definition with_updated_at (now : datetime) (e : Emergency.t) : Emergency.t :=
  Emergency.mk (Emergency.emergency_type e)
    (Emergency.priority_level e) (Emergency.status e)
    (Emergency.location_lat e) (Emergency.location_lon e)
    (Emergency.response_plan e) (Emergency.estimated_response_time e)
    (Emergency.actual_response_time e) (Emergency.notes e)
    (Emergency.created_at e) (Some now).

(** [PUT /emergency/{emergency_id}] *)
Definition update_emergency (emergency_id : UUID) (update : EmergencyUpdate)
    : M pyval :=
  Session.get_db
    (emergency ← Session.query_emergency emergency_id;
     match emergency with
     | None => raise (HTTPException 404 "Emergency not found")
     | Some emergency =>
         let old_status := Emergency.status emergency in
         let emergency :=
           with_status (status_value (u_status update)) (u_notes update)
             emergency in
         now ← utcnow lib;
         let emergency := with_updated_at now emergency in
         actual_response_time ←
           (if bool_decide (u_status update = RESOLVED) then
              now ← utcnow lib;
              created_at ← lift (match Emergency.created_at emergency with
                                 | Some t => inr t
                                 | None => inl TypeError
                                 end);
              minutes ← lift (elapsed_minutes now created_at);
              mret (Some (PyInt minutes))
            else mret None);
         Session.add
           (DirtyEmergency emergency_id emergency actual_response_time);;
         Session.commit lib;;
         (* Send notification *)
         NotificationService.send_notification lib "status_update"
           (PyDict {[ "emergency_id" := PyStr (uuid_str lib emergency_id);
                      "old_status" := PyStr old_status;
                      "new_status" := PyStr (status_value (u_status update));
                      "notes" := of_option PyStr (u_notes update) ]});;
         mret (PyDict {[ "message" := PyStr "Emergency updated successfully" ]})
     end).

(** [POST /notifications/subscribe] *)
Definition subscribe_to_notifications
    (subscription : NotificationSubscriptionCreate) : M pyval :=
  Session.get_db
    (let db_subscription :=
       NotificationSubscription.mk
         (sc_subscriber_type subscription) (sc_subscriber_id subscription)
         (sc_notification_type subscription) (sc_channel subscription) None in
     Session.add (NewSubscription db_subscription);;
     Session.commit lib;;
     mret (PyDict {[ "message" := PyStr "Subscription created successfully" ]})).

End Handlers.

End Main.

(** ** What the specification asks of the fan-out engine *)

Module FanOut.

(** The stored subscriptions an event of type [event_type] matches. *)
Definition matching (event_type : string) (d : Database)
    : list NotificationSubscription.t :=
  filter (fun s => NotificationSubscription.notification_type s = event_type)
         (map_to_list (notification_subscriptions d)).*2.

(** The notifications addressed to a subscriber. *)
Definition addressed_to (subscriber_id : string) (d : Database)
    : list Notification.t :=
  filter (fun n => Notification.recipient_id n = subscriber_id)
         (map_to_list (notifications d)).*2.

End FanOut.

(** ** Computations that only consult providers *)

Module Effects.

Definition add_calls (cs : list Call) (w : World) : World :=
  mkWorld (db w) (session w) (stdout w) (log w) (calls w ++ cs)
          (ticks w) (draws w).

(** [m] ends with [r] after the provider calls [cs], in every world, and
    touches nothing else. *)
Definition only_calls {A} (m : M A) (r : result A) (cs : list Call) : Prop :=
  forall w, m w = (r, add_calls cs w).

(** [m] is such a computation, its result satisfies [R] and each of its
    calls satisfies [P]. *)
Definition outcome {A} (R : result A -> Prop) (P : Call -> Prop) (m : M A)
    : Prop :=
  exists r cs, only_calls m r cs /\ R r /\ Forall P cs.

Definition succeeds {A} (r : result A) : Prop := exists a, r = inr a.

(** The calls after a report that supplies [text]: no transcription, and
    language detection and translation receive that text. *)
Definition downstream_of (text : string) (c : Call) : Prop :=
  match c with
  | CallTranscribe _ => False
  | CallDetectLanguage t | CallTranslate t => t = text
  | CallClassify _ | CallActor _ _ => True
  end.

Definition actor_only (c : Call) : Prop :=
  match c with
  | CallActor _ _ => True
  | _ => False
  end.





(** What [process_emergency] returns when it returns: a dictionary with a
    type and a priority. *)
Definition typed_record (v : pyval) : Prop :=
  exists d ty priority,
    v = PyDict d /\ d !! "type" = Some ty /\ d !! "priority" = Some priority.


End Effects.

(** ** Concrete collaborators and requests *)

Module Scenario.

(** A library whose renderings are fixed strings, a clock that advances
    by two and a half minutes at every reading, and identifiers 0, 1, ... *)
Definition lib : Library :=
  mkLibrary
    (fun e => match e with
              | Exception msg => msg
              | HTTPException _ detail => detail
              | KeyError key => key
              | TypeError => "TypeError"
              | IntegrityError => "IntegrityError"
              | StatementError => "StatementError"
              | ValueError => "ValueError"
              | OverflowError => "OverflowError"
              end)
    (fun _ => "<response>")
    (fun _ => inr "<json>")
    (fun _ => "<uuid>")
    (fun n => Z.of_nat n * 150000000)
    (fun n => N.of_nat n).

(** The speech service in test mode and the classifier of the sources, a
    translator that knows one Spanish sentence, and no Apify actor. *)
Definition svc : Services :=
  mkServices
    (SpeechService.transcribe lib true None)
    (fun text => inr (mkLanguageDetection
       (if String.eqb text "Ayuda! Hay un incendio" then "es" else "en")
       1.0%float))
    (fun _ => inr (mkTranslation "Help! There is a fire" "es" "es" "en"))
    EmergencyClassifier.classify
    (fun _ _ => inl (Exception "actor unavailable")).

(** The same collaborators with the classification provider down. *)
Definition svc_no_classifier : Services :=
  mkServices (transcribe svc) (detect_language svc) (translate svc)
    (fun _ => inl (Exception "Classification failed: model unavailable"))
    (actor_call svc).

(** Collaborators whose weather and traffic actors answer. *)
Definition svc_actors : Services :=
  mkServices (transcribe svc) (detect_language svc) (translate svc)
    (classify svc)
    (fun actor _ =>
       if String.eqb actor "apify/weather" then
         inr (PyDict {[ "data" := PyDict
           {[ "temperature" := PyInt 21; "conditions" := PyStr "clear";
              "windSpeed" := PyInt 3; "visibility" := PyInt 10 ]} ]})
       else if String.eqb actor "apify/traffic" then
         inr (PyDict {[ "data" := PyDict
           {[ "congestionLevel" := PyStr "low"; "averageSpeed" := PyInt 40;
              "incidents" := PyList [] ]} ]})
       else inl (Exception "actor unavailable")).

(** The same with the weather actor down. *)
Definition svc_no_weather : Services :=
  mkServices (transcribe svc) (detect_language svc) (translate svc)
    (classify svc)
    (fun actor run_input =>
       if String.eqb actor "apify/weather" then inl (Exception "weather down")
       else actor_call svc_actors actor run_input).

Definition world0 : World := mkWorld empty_db [] [] [] [] 0 0.

Definition audio_clip : Main.UploadFile :=
  Main.mkUploadFile "clip.wav" [Byte.x52; Byte.x49; Byte.x46; Byte.x46].

Definition here : pyval :=
  PyDict {[ "lat" := PyFloat 40.7128%float; "lon" := PyFloat (-74.006)%float ]}.

(** One report has been filed: the store holds emergency 0, ACTIVE. *)
Definition world1 : World :=
  (Main.report_emergency svc lib None (Some "Fire in the kitchen") None None
     world0).2.

(** Then it is cancelled. *)
Definition world2 : World :=
  (Main.update_emergency lib 0%N (Main.mkEmergencyUpdate CANCELLED None) world1).2.

(** The rows of emergency 0 in these two worlds. *)
Definition no_row : Emergency.t :=
  Emergency.mk PyNone PyNone "" None None PyNone None None None None None.

Definition emergency1 : Emergency.t :=
  default no_row (emergencies (db world1) !! 0%N).

Definition emergency2 : Emergency.t :=
  default no_row (emergencies (db world2) !! 0%N).

(** A unit has subscribed to the events of type [emergency]. *)
Definition world_subscribed : World :=
  (Main.subscribe_to_notifications lib
     (Main.mkNotificationSubscriptionCreate "service" "unit-7" "emergency"
        "websocket") world0).2.

End Scenario.

(** ** services/emergency_coordinator.py: the other methods *)

Module CoordinatorHelpers.






(** A call of [send_notification] with keyword arguments only: the
    keywords are bound to the parameters [channel] and [data] before the body
    runs; a keyword that names no parameter, or a parameter left without
    argument, is a [TypeError]. *)
Definition bind_keywords (parameters : list string)
    (kwargs : list (string * pyval)) : result (gmap string pyval) :=
  if forallb (fun kv => bool_decide (kv.1 ∈ parameters)) kwargs
     && forallb (fun p => bool_decide (p ∈ kwargs.*1)) parameters
  then inr (list_to_map kwargs)
  else inl TypeError.

Definition send_notification_kw (lib : Library) (kwargs : list (string * pyval))
    : M bool :=
  arguments ← lift (bind_keywords ["channel"; "data"] kwargs);
  let channel := default PyNone (arguments !! "channel") in
  let data := default PyNone (arguments !! "data") in
  NotificationService.send_notification lib
    (match channel with PyStr s => s | _ => py_format lib channel end) data.

(** The loop of [_notify_services]. *)
Fixpoint notify_each (lib : Library) (emergency_details : gmap string pyval)
    (required_services : list (pyval * pyval)) : M unit :=
  match required_services with
  | [] => mret tt
  | (service_type, confidence) :: rest =>
      let notification_data :=
        <["service_confidence" := confidence]> emergency_details in
      send_notification_kw lib
        [("notification_type", service_type);
         ("data", PyDict notification_data)];;
      notify_each lib emergency_details rest
  end.

(** [_notify_services] *)
Definition _notify_services (lib : Library)
    (emergency_details : gmap string pyval)
    (required_services : list (pyval * pyval)) : M unit :=
  try_except
    (notify_each lib emergency_details required_services)
    (fun e => raise (Exception ("Failed to notify services: " ++ py_str lib e))).

(** [update_emergency_status] *)
Definition update_emergency_status (lib : Library) (emergency_id : string)
    (new_status : string) (update_data : option (gmap string pyval)) : M unit :=
  try_except
    ((* Create update notification *)
     let notification_data : gmap string pyval :=
       default ∅ update_data
       ∪ {[ "emergency_id" := PyStr emergency_id;
            "status" := PyStr new_status ]} in
     (* Send update notification *)
     send_notification_kw lib
       [("notification_type", PyStr "STATUS_UPDATE");
        ("data", PyDict notification_data)];;
     mret tt)
    (fun e =>
       raise (Exception ("Failed to update emergency status: " ++ py_str lib e))).

End CoordinatorHelpers.

(** ** services/translation/translation_service.py: the client calls *)

Module TranslationClient.

(** The request handed to the Cloud Translation client. *)
Record Request := mkRequest {
  parent : string;
  contents : list string;
  target_language_code : string;
  source_language_code : option string
}.

(** The first translation of a response. *)
Record ClientTranslation := mkClientTranslation {
  ct_translated_text : string;
  ct_detected_language_code : string
}.

Section Service.

(** [self.parent], and [self.client.translate_text(request=...)] followed by
    [response.translations[0]]; either step may raise. *)
Variable parent : string.
Variable first_translation : Request -> result ClientTranslation.
Variable lib : Library.

(** [translate] *)
Definition translate (text : string) (target_language : string)
    (source_language : option string) : result Translation :=
  let request :=
    mkRequest parent [text] target_language
      (if truthy_str source_language then source_language else None) in
  match first_translation request with
  | inr translation =>
      inr (mkTranslation
             (ct_translated_text translation)
             (ct_detected_language_code translation)
             (if truthy_str source_language then default "" source_language
              else ct_detected_language_code translation)
             target_language)
  | inl e => inl (Exception ("Translation failed: " ++ py_str lib e))
  end.

(** [detect_language] *)
Definition detect_language (text : string) : result LanguageDetection :=
  let request := mkRequest parent [text] "en" None in
  match first_translation request with
  | inr translation =>
      inr (mkLanguageDetection (ct_detected_language_code translation) 1.0%float)
  | inl e => inl (Exception ("Language detection failed: " ++ py_str lib e))
  end.

End Service.

End TranslationClient.

(** ** services/data_collection/apify_service.py: the formatting helpers *)

Module ApifyFormat.

(** [items[0]] on an empty list. *)
Inductive lookup_error := IndexError.

(** [item.get(key)] and [item.get(key, default)] *)
Definition get (item : gmap string pyval) (key : string) (default : pyval)
    : pyval :=
  match item !! key with
  | Some v => v
  | None => default
  end.

(** [_process_hospital_data] *)
Definition _process_hospital_data (items : list (gmap string pyval))
    : list (gmap string pyval) :=
  (fun item =>
     {[ "name" := get item "name" PyNone;
        "address" := get item "address" PyNone;
        "phone" := get item "phone" PyNone;
        "rating" := get item "rating" PyNone;
        "distance" := get item "distance" PyNone;
        "emergency" := get item "emergency" (PyBool false) ]}) <$> items.

(** [_process_traffic_data]; [timestamp] is [datetime.now().isoformat()],
    which is evaluated after the three lookups. *)
Definition _process_traffic_data (timestamp : string)
    (items : list (gmap string pyval)) : lookup_error + gmap string pyval :=
  match items with
  | [] => inl IndexError
  | first :: _ =>
      inr {[ "congestion_level" := get first "congestionLevel" (PyStr "unknown");
             "incidents" := get first "incidents" (PyList []);
             "average_speed" := get first "averageSpeed" PyNone;
             "timestamp" := PyStr timestamp ]}
  end.

(** [_process_weather_data] *)
Definition _process_weather_data (timestamp : string)
    (items : list (gmap string pyval)) : gmap string pyval :=
  match items with
  | [] => {[ "status" := PyStr "unknown" ]}
  | weather :: _ =>
      {[ "temperature" := get weather "temperature" PyNone;
         "conditions" := get weather "conditions" PyNone;
         "visibility" := get weather "visibility" PyNone;
         "wind_speed" := get weather "windSpeed" PyNone;
         "precipitation" := get weather "precipitation" PyNone;
         "timestamp" := PyStr timestamp ]}
  end.

End ApifyFormat.

(** ** main.py: the read endpoints *)

Module MainQueries.

(** The fields [get_emergency_status] returns. *)
Record EmergencyView := mkEmergencyView {
  v_id : UUID;
  v_emergency_type : pyval;
  v_priority_level : pyval;
  v_status : string;
  v_response_plan : pyval;
  v_estimated_response_time : option datetime;
  v_actual_response_time : option datetime;
  v_created_at : option datetime;
  v_updated_at : option datetime
}.

(** [GET /emergency/{emergency_id}] *)
Definition get_emergency_status (emergency_id : UUID) : M EmergencyView :=
  Session.get_db
    (emergency ← Session.query_emergency emergency_id;
     match emergency with
     | None => raise (HTTPException 404 "Emergency not found")
     | Some emergency =>
         mret (mkEmergencyView emergency_id
                 (Emergency.emergency_type emergency)
                 (Emergency.priority_level emergency)
                 (Emergency.status emergency)
                 (Emergency.response_plan emergency)
                 (Emergency.estimated_response_time emergency)
                 (Emergency.actual_response_time emergency)
                 (Emergency.created_at emergency)
                 (Emergency.updated_at emergency))
     end).

(** [ORDER BY created_at DESC]: [a] may come before [b]. *)
Definition newest_first (a b : UUID * Notification.t) : Prop :=
  (Notification.created_at b.2 <= Notification.created_at a.2)%Z.

#[global] Instance newest_first_dec a b : Decision (newest_first a b).
Proof. unfold newest_first. apply _. Defined.

(** The query of [get_notifications]; the database may return rows of
    equal [created_at] in any order, here in the order the sort leaves them. *)
Definition notifications_of (subscriber_id : string) (d : Database)
    : list (UUID * Notification.t) :=
  take 100
    (merge_sort newest_first
       (filter (fun row => Notification.recipient_id row.2 = subscriber_id)
               (map_to_list (notifications d)))).

(** [GET /notifications/{subscriber_id}] *)
Definition get_notifications (subscriber_id : string)
    : M (list (UUID * Notification.t)) :=
  Session.get_db (fun w => (inr (notifications_of subscriber_id (db w)), w)).

(** The requests the endpoints above and those of [Main] serve. *)
Inductive Request :=
| Report (audio : option Main.UploadFile) (text : option string)
         (lat lon : option float)
| Update (emergency_id : UUID) (update : Main.EmergencyUpdate)
| Subscribe (subscription : Main.NotificationSubscriptionCreate)
| GetStatus (emergency_id : UUID)
| GetNotifications (subscriber_id : string).

(** The world after a request has been served. *)
Definition serve (svc : Services) (lib : Library) (request : Request)
    (w : World) : World :=
  match request with
  | Report audio text lat lon =>
      (Main.report_emergency svc lib audio text lat lon w).2
  | Update emergency_id update =>
      (Main.update_emergency lib emergency_id update w).2
  | Subscribe subscription =>
      (Main.subscribe_to_notifications lib subscription w).2
  | GetStatus emergency_id => (get_emergency_status emergency_id w).2
  | GetNotifications subscriber_id => (get_notifications subscriber_id w).2
  end.

Definition serve_all (svc : Services) (lib : Library)
    (requests : list Request) (w : World) : World :=
  fold_left (fun w request => serve svc lib request w) requests w.

End MainQueries.

(** ** The statements' vocabulary for the endpoints and the enrichment *)

Module Reading.

(** The location [report_emergency] builds from the form fields: the dict
    of both coordinates when neither is [None], and [None] otherwise. *)
Definition location_of (lat lon : option float) : option pyval :=
  match lat, lon with
  | Some lat, Some lon =>
      Some (PyDict {[ "lat" := PyFloat lat; "lon" := PyFloat lon ]})
  | _, _ => None
  end.

(** The actor and the context key of the facilities branch that
    [_get_facilities_data] takes for an emergency type. *)
Definition facility_of (emergency_type : string) : option (string * string) :=
  if String.eqb emergency_type "MEDICAL" then
    Some ("apify/hospitals", "hospitals")
  else if String.eqb emergency_type "FIRE" then
    Some ("apify/fire-stations", "fire_stations")
  else if String.eqb emergency_type "POLICE" then
    Some ("apify/police-stations", "police_stations")
  else None.

(** The run input of an actor that searches around a point. *)
Definition around (lat lon : pyval) (radius : Z) : pyval :=
  PyDict {[ "lat" := lat; "lon" := lon; "radius" := PyInt radius ]}.

End Reading.

(** ** More concrete cases *)

Module Cases.

Import Scenario.

(** The answer to the report that leads from [world0] to [world1]. *)
Definition answer1 : pyval :=
  match (Main.report_emergency svc lib None (Some "Fire in the kitchen")
           None None world0).1 with
  | inr answer => answer
  | inl _ => PyNone
  end.

(** A report with a latitude and no longitude. *)
Definition half_located : result pyval * World :=
  Main.report_emergency svc_actors lib None (Some "Fire in the kitchen")
    (Some 40.7128%float) None world0.

(** A location that lacks its longitude. *)
Definition no_longitude : pyval :=
  PyDict {[ "lat" := PyFloat 40.7128%float ]}.

Definition unit7 : Main.NotificationSubscriptionCreate :=
  Main.mkNotificationSubscriptionCreate "service" "unit-7" "emergency"
    "websocket".

End Cases.

(** * Properties *)

Section FloatOrder.

Lemma SFltb_leb_trans (a b c : spec_float) :
  SFltb a b = true -> SFleb b c = true -> SFltb a c = true.
Proof.
  unfold SFltb, SFleb, SFcompare.
  destruct a as [sa|sa| |sa ma ea], b as [sb|sb| |sb mb eb],
           c as [sc|sc| |sc mc ec];
    try destruct sa; try destruct sb; try destruct sc;
    try discriminate; try reflexivity;
    change (Pos.compare_cont Eq ?x ?y) with (Pos.compare x y);
    repeat match goal with
    | |- context [Z.compare ?x ?y] => destruct (Z.compare_spec x y)
    | |- context [Pos.compare ?x ?y] => destruct (Pos.compare_spec x y)
    end; simpl; try discriminate; try reflexivity; intros; subst; lia.
Qed.

(** [>] against a fixed threshold is upward closed for [<=]. *)
Lemma float_gt_upward (t c c' : float) :
  (c <=? c')%float = true -> (t <? c)%float = true -> (t <? c')%float = true.
Proof.
  rewrite leb_spec, !ltb_spec. intros Hle Hlt.
  exact (SFltb_leb_trans _ _ _ Hlt Hle).
Qed.

End FloatOrder.

Section Resolver.

Import EmergencyClassifier ResolverSpec.

Ltac by_type ty :=
  destruct (String.eqb ty "FIRE");
  [| destruct (String.eqb ty "MEDICAL");
     [| destruct (String.eqb ty "CRIME");
        [| destruct (String.eqb ty "NATURAL_DISASTER");
           [| destruct (String.eqb ty "TRAFFIC") ]]]].

(** C1: for every emergency type and confidence, [get_required_services]
    returns the boolean map over fire, medical, police and rescue whose true
    entries are the base table's services together with, when the confidence
    exceeds 0.8, the escalation services; (FIRE, 0.9) enables fire, rescue
    and medical but not police, and (CRIME, 0.5) enables police only. *)
Theorem get_required_services_table :
  (forall emergency_type confidence,
      get_required_services emergency_type confidence
      = as_map (enabled emergency_type confidence))
  /\ get_required_services "FIRE" 0.9%float
     = {[ "fire" := true; "rescue" := true; "medical" := true; "police" := false ]}
  /\ get_required_services "CRIME" 0.5%float
     = {[ "police" := true; "fire" := false; "medical" := false; "rescue" := false ]}.
Proof.
  split; [| split; reflexivity].
  intros ty c. unfold get_required_services, enabled, base, escalation.
  by_type ty; destruct (0.8 <? c)%float; reflexivity.
Qed.

Lemma get_required_services_dom (emergency_type : string) (c : float) :
  dom (get_required_services emergency_type c) = list_to_set service_keys.
Proof.
  unfold get_required_services.
  by_type emergency_type; destruct (0.8 <? c)%float; reflexivity.
Qed.

Lemma get_required_services_key (emergency_type : string) (c : float) k v :
  get_required_services emergency_type c !! k = Some v -> k ∈ service_keys.
Proof.
  intros Hk. apply elem_of_dom_2 in Hk.
  rewrite get_required_services_dom in Hk. set_solver.
Qed.

(** C10: for every emergency type, a service enabled at confidence [c] is
    enabled at every confidence [c'] with [c <= c'], and the returned map has
    exactly the keys fire, medical, police and rescue. *)
Theorem get_required_services_monotone (emergency_type : string) (c c' : float) :
  (c <=? c')%float = true ->
  dom (get_required_services emergency_type c') = list_to_set service_keys
  /\ forall k, get_required_services emergency_type c !! k = Some true ->
               get_required_services emergency_type c' !! k = Some true.
Proof.
  intros Hle. split; [apply get_required_services_dom |].
  intros k Hk.
  assert (Hup : (0.8 <? c)%float = true -> (0.8 <? c')%float = true)
    by apply float_gt_upward, Hle.
  pose proof (get_required_services_key _ _ _ _ Hk) as Hin.
  revert Hk. unfold get_required_services.
  destruct (0.8 <? c)%float.
  - rewrite Hup by reflexivity. tauto.
  - clear Hup. unfold service_keys in Hin.
    repeat (apply elem_of_cons in Hin as [->|Hin]); [..| inversion Hin];
      by_type emergency_type; destruct (0.8 <? c')%float;
      vm_compute; congruence.
Qed.

(** C10 at FIRE, from confidence 0.5 to 0.9. *)
Lemma get_required_services_monotone_witness :
  (0.5 <=? 0.9)%float = true
  /\ dom (get_required_services "FIRE" 0.9%float) = list_to_set service_keys
  /\ forall k, get_required_services "FIRE" 0.5%float !! k = Some true ->
               get_required_services "FIRE" 0.9%float !! k = Some true.
Proof.
  split; [reflexivity |].
  apply (get_required_services_monotone "FIRE" 0.5%float 0.9%float).
  reflexivity.
Defined.

End Resolver.

(** ** The monad's building blocks *)

Ltac run_M :=
  unfold mbind, mret, M_bind, M_ret, try_except, lift, raise; simpl.

(** ** Rules for computations that only consult providers *)

Section EffectRules.

Import Effects.

Context {A B : Type}.

Lemma add_calls_nil (w : World) : add_calls [] w = w.
Proof. destruct w. unfold add_calls. simpl. by rewrite app_nil_r. Qed.

Lemma add_calls_app (cs cs' : list Call) (w : World) :
  add_calls cs' (add_calls cs w) = add_calls (cs ++ cs')%list w.
Proof. unfold add_calls. simpl. by rewrite app_assoc. Qed.

Lemma only_calls_ret (a : A) : only_calls (mret a) (inr a) [].
Proof. intros w. by rewrite add_calls_nil. Qed.

Lemma only_calls_lift (r : result A) : only_calls (lift r) r [].
Proof. intros w. unfold lift. by rewrite add_calls_nil. Qed.

Lemma only_calls_bind_ok (m : M A) (f : A -> M B) a cs r cs' :
  only_calls m (inr a) cs -> only_calls (f a) r cs' ->
  only_calls (m ≫= f) r (cs ++ cs')%list.
Proof.
  intros Hm Hf w. unfold mbind, M_bind. rewrite Hm, Hf.
  by rewrite add_calls_app.
Qed.

Lemma only_calls_bind_err (m : M A) (f : A -> M B) e cs :
  only_calls m (inl e) cs -> only_calls (m ≫= f) (inl e) cs.
Proof. intros Hm w. unfold mbind, M_bind. by rewrite Hm. Qed.

Lemma only_calls_try_ok (m : M A) (h : exn -> M A) a cs :
  only_calls m (inr a) cs -> only_calls (try_except m h) (inr a) cs.
Proof. intros Hm w. unfold try_except. by rewrite Hm. Qed.

Lemma only_calls_try_err (m : M A) (h : exn -> M A) e cs r cs' :
  only_calls m (inl e) cs -> only_calls (h e) r cs' ->
  only_calls (try_except m h) r (cs ++ cs')%list.
Proof.
  intros Hm Hh w. unfold try_except. rewrite Hm, Hh.
  by rewrite add_calls_app.
Qed.

Lemma outcome_ret (R : result A -> Prop) P (a : A) :
  R (inr a) -> outcome R P (mret a).
Proof. intros HR. exists (inr a), []. auto using only_calls_ret. Qed.

Lemma outcome_raise (R : result A -> Prop) P (e : exn) :
  R (inl e) -> outcome R P (raise e).
Proof.
  intros HR. exists (inl e), []. split; [| auto].
  intros w. unfold raise. by rewrite add_calls_nil.
Qed.

Lemma outcome_lift (R : result A -> Prop) P (r : result A) :
  R r -> outcome R P (lift r).
Proof. intros HR. exists r, []. auto using only_calls_lift. Qed.

Lemma outcome_bind (R1 : result A -> Prop) (R : result B -> Prop) P
    (m : M A) (f : A -> M B) :
  outcome R1 P m ->
  (forall a, R1 (inr a) -> outcome R P (f a)) ->
  (forall e, R1 (inl e) -> R (inl e)) ->
  outcome R P (m ≫= f).
Proof.
  intros (r & cs & Hm & HR1 & HP) Hf He. destruct r as [e|a].
  - exists (inl e), cs. auto using only_calls_bind_err.
  - destruct (Hf a HR1) as (r' & cs' & Hfa & HR & HP').
    exists r', (cs ++ cs')%list. split; [by eapply only_calls_bind_ok |].
    split; [done | by apply Forall_app].
Qed.

Lemma outcome_try (R1 R : result A -> Prop) P (m : M A) (h : exn -> M A) :
  outcome R1 P m ->
  (forall a, R1 (inr a) -> R (inr a)) ->
  (forall e, R1 (inl e) -> outcome R P (h e)) ->
  outcome R P (try_except m h).
Proof.
  intros (r & cs & Hm & HR1 & HP) Ha Hh. destruct r as [e|a].
  - destruct (Hh e HR1) as (r' & cs' & Hhe & HR & HP').
    exists r', (cs ++ cs')%list. split; [by eapply only_calls_try_err |].
    split; [done | by apply Forall_app].
  - exists (inr a), cs. auto using only_calls_try_ok.
Qed.

Lemma only_calls_raise (e : exn) : only_calls (raise e : M A) (inl e) [].
Proof. intros w. unfold raise. by rewrite add_calls_nil. Qed.

Lemma only_calls_calls (m : M A) r cs cs' :
  only_calls m r cs -> cs = cs' -> only_calls m r cs'.
Proof. by intros Hm <-. Qed.

End EffectRules.

Section MoreEffectRules.

Import Effects.

Lemma only_calls_bind_ret {A B} (m : M A) (g : A -> B) a cs :
  only_calls m (inr a) cs ->
  only_calls (m ≫= fun x => mret (g x)) (inr (g a)) cs.
Proof.
  intros Hm. rewrite <- (app_nil_r cs).
  eapply only_calls_bind_ok; [exact Hm | apply only_calls_ret].
Qed.

Lemma only_calls_ext {A} (m m' : M A) r cs :
  (forall w, m' w = m w) -> only_calls m r cs -> only_calls m' r cs.
Proof. intros Hext Hm w. rewrite Hext. apply Hm. Qed.

End MoreEffectRules.

(** ** Two runs side by side *)

Section RelatedRules.

Import Effects.

Context {A B : Type}.






End RelatedRules.



(** ** The notification service *)

Section Notifications.

Variable lib : Library.

(** [send_notification] never raises: it prints one line and leaves the
    rest of the world as it was. *)
Lemma send_notification_run (channel : string) (data : pyval) (w : World) :
  exists (b : bool) (line : string),
    NotificationService.send_notification lib channel data w
    = (inr b, mkWorld (db w) (session w) (stdout w ++ [line]) (log w)
                      (calls w) (ticks w) (draws w)).
Proof.
  unfold NotificationService.send_notification, print. run_M.
  destruct (json_dumps lib data) as [e|text]; simpl; eauto.
Qed.

(** C4 (as the code has it): publishing an event creates no Notification,
    whatever subscriptions are stored: [send_notification] returns a boolean
    without raising, writes one line to the standard output and leaves every
    table unchanged, so no subscriber is addressed a Notification by it. *)
Theorem send_notification_creates_no_notification
    (channel : string) (data : pyval) (w : World) :
  exists (b : bool) (line : string) (w' : World),
    NotificationService.send_notification lib channel data w = (inr b, w')
    /\ db w' = db w
    /\ stdout w' = (stdout w ++ [line])%list
    /\ (forall text, json_dumps lib data = inr text ->
          b = true
          /\ line = "Sending notification to " ++ channel ++ ": " ++ text)
    /\ (forall e, json_dumps lib data = inl e ->
          b = false
          /\ line = "Failed to send notification: " ++ py_str lib e)
    /\ forall subscriber_id,
         FanOut.addressed_to subscriber_id (db w')
         = FanOut.addressed_to subscriber_id (db w).
Proof.
  unfold NotificationService.send_notification, print. run_M.
  destruct (json_dumps lib data) as [e|text]; simpl;
    do 3 eexists; (split; [reflexivity |]); simpl;
    repeat split; try discriminate; try reflexivity; congruence.
Qed.

End Notifications.

(** C4, counterexample: with a stored subscription whose notification type
    is the event type, publishing the event leaves the subscriber without
    any Notification. *)
Lemma matching_subscription_gets_no_notification :
  length (FanOut.matching "emergency" (db Scenario.world_subscribed)) = 1%nat
  /\ exists w',
       NotificationService.send_notification Scenario.lib "emergency"
         (PyDict {[ "emergency_id" := PyStr "<uuid>" ]}) Scenario.world_subscribed
       = (inr true, w')
       /\ FanOut.addressed_to "unit-7" (db w') = []
       /\ notifications (db w') = ∅.
Proof.
  split; [vm_compute; reflexivity |].
  eexists. split; [vm_compute; reflexivity |]. split; vm_compute; reflexivity.
Qed.

(** ** The update endpoint *)

Section Lifecycle.

Import Main.

Variable lib : Library.

(** What one call of [update_emergency] with a target other than RESOLVED
    does to a stored emergency. *)
Lemma update_emergency_run (w : World) (emergency_id : UUID)
    (e : Emergency.t) (update : EmergencyUpdate) :
  emergencies (db w) !! emergency_id = Some e ->
  u_status update <> RESOLVED ->
  exists w' line,
    update_emergency lib emergency_id update w
    = (inr (PyDict {[ "message" := PyStr "Emergency updated successfully" ]}), w')
    /\ db w' =
       Session.put_emergency emergency_id
         (with_updated_at (clock lib (ticks w))
            (with_status (status_value (u_status update)) (u_notes update) e))
         (db w)
    /\ stdout w' = (stdout w ++ [line])%list.
Proof.
  intros Hrow Hstatus.
  unfold update_emergency, Session.get_db, Session.query_emergency.
  run_M. rewrite Hrow. unfold utcnow. simpl.
  rewrite bool_decide_eq_false_2 by exact Hstatus. simpl.
  unfold Session.add, Session.commit; simpl; run_M.
  unfold Session.update_emergency_row; simpl.
  match goal with
  | |- context [NotificationService.send_notification ?l ?c ?d ?w0] =>
      destruct (send_notification_run l c d w0) as (b & line & ->)
  end.
  simpl. eexists. exists line. repeat split; reflexivity.
Qed.

(** With the target RESOLVED the handler fails: at the latest when the
    flush binds the minutes to the [DateTime] column. The transaction is
    not committed, and the notification after it is not sent. *)
Lemma update_emergency_resolved (w : World) (emergency_id : UUID)
    (e : Emergency.t) (update : EmergencyUpdate) :
  emergencies (db w) !! emergency_id = Some e ->
  u_status update = RESOLVED ->
  exists err w',
    update_emergency lib emergency_id update w = (inl err, w')
    /\ db w' = db w /\ stdout w' = stdout w /\ calls w' = calls w
    /\ (forall t0 minutes,
          Emergency.created_at e = Some t0 ->
          elapsed_minutes (clock lib (S (ticks w))) t0 = inr minutes ->
          err = StatementError).
Proof.
  intros Hrow Hstatus.
  unfold update_emergency, Session.get_db, Session.query_emergency.
  run_M. rewrite Hrow. unfold utcnow. simpl.
  rewrite bool_decide_eq_true_2 by exact Hstatus. simpl.
  destruct (Emergency.created_at e) as [t0|]; simpl.
  2: { do 2 eexists. split; [reflexivity |]. repeat split; try reflexivity.
       intros ? ? [=]. }
  destruct (elapsed_minutes (clock lib (S (ticks w))) t0)
    as [err|minutes] eqn:Hminutes; simpl.
  { do 2 eexists. split; [reflexivity |]. repeat split; try reflexivity.
    intros ? ? [= <-] H. rewrite Hminutes in H. discriminate. }
  unfold Session.add, Session.commit; simpl; run_M.
  do 2 eexists. split; [reflexivity |]. repeat split; reflexivity.
Qed.

(** An unknown identifier is answered with 404 and changes no table. *)
Lemma update_emergency_not_found (w : World) (emergency_id : UUID)
    (update : EmergencyUpdate) :
  emergencies (db w) !! emergency_id = None ->
  exists w',
    update_emergency lib emergency_id update w
    = (inl (HTTPException 404 "Emergency not found"), w')
    /\ db w' = db w.
Proof.
  intros Hrow.
  unfold update_emergency, Session.get_db, Session.query_emergency.
  run_M. rewrite Hrow. simpl. eexists. split; reflexivity.
Qed.

(** C2 (as the code has it): an update of a stored emergency to ACTIVE or
    CANCELLED is accepted whatever the current status is, terminal or not:
    the call succeeds, the status and the notes become the requested ones,
    and no EmergencyStatusUpdate record is written. *)
Theorem update_emergency_accepts_any_status (w : World) (emergency_id : UUID)
    (e : Emergency.t) (update : EmergencyUpdate) :
  emergencies (db w) !! emergency_id = Some e ->
  u_status update <> RESOLVED ->
  exists w' e',
    update_emergency lib emergency_id update w
    = (inr (PyDict {[ "message" := PyStr "Emergency updated successfully" ]}), w')
    /\ emergencies (db w') !! emergency_id = Some e'
    /\ Emergency.status e' = status_value (u_status update)
    /\ Emergency.notes e' = u_notes update
    /\ emergency_status_updates (db w') = emergency_status_updates (db w).
Proof.
  intros Hrow Hstatus.
  destruct (update_emergency_run w emergency_id e update Hrow Hstatus)
    as (w' & line & Hrun & Hdb & _).
  exists w'. eexists. split; [exact Hrun |]. rewrite Hdb. simpl.
  split; [apply lookup_insert_eq |]. repeat split.
Qed.

(** C7 (what the code does): an update of a stored emergency to RESOLVED
    computes the minutes and assigns them to [actual_response_time], whose
    column is a [DateTime]; the commit refuses the statement, so the handler
    raises, and neither the response time nor the status RESOLVED is stored
    and nothing is printed. An update to another status succeeds and leaves
    [actual_response_time] as it was. *)
Theorem resolved_update_is_refused (w : World) (emergency_id : UUID)
    (e : Emergency.t) (update : EmergencyUpdate) (t0 : datetime) (minutes : Z) :
  emergencies (db w) !! emergency_id = Some e ->
  Emergency.created_at e = Some t0 ->
  elapsed_minutes (clock lib (S (ticks w))) t0 = inr minutes ->
  exists r w',
    update_emergency lib emergency_id update w = (r, w')
    /\ (u_status update = RESOLVED ->
        r = inl StatementError
        /\ db w' = db w /\ stdout w' = stdout w)
    /\ (u_status update <> RESOLVED ->
        exists e',
          r = inr (PyDict {[ "message" :=
                               PyStr "Emergency updated successfully" ]})
          /\ emergencies (db w') !! emergency_id = Some e'
          /\ Emergency.actual_response_time e'
             = Emergency.actual_response_time e).
Proof.
  intros Hrow Hcreated Hminutes.
  destruct (decide (u_status update = RESOLVED)) as [Hstatus|Hstatus].
  - destruct (update_emergency_resolved w emergency_id e update Hrow Hstatus)
      as (err & w' & Hrun & Hdb & Hout & _ & Herr).
    exists (inl err), w'. split; [exact Hrun |]. split; [| done].
    intros _. by rewrite (Herr t0 minutes Hcreated Hminutes).
  - destruct (update_emergency_run w emergency_id e update Hrow Hstatus)
      as (w' & line & Hrun & Hdb & _).
    eexists _, w'. split; [exact Hrun |]. split; [done |].
    intros _. eexists. split; [reflexivity |]. rewrite Hdb. simpl.
    split; [apply lookup_insert_eq | reflexivity].
Qed.

End Lifecycle.

(** The minutes are computed in binary64, as Python computes them: five
    minutes after 300 seconds, and 315576000 minutes for a span that is one
    microsecond short of them, where the exact quotient truncates to
    315575999. *)
Example elapsed_minutes_binary64 :
  Main.elapsed_minutes 300000000 0 = inr 5
  /\ Main.elapsed_minutes 359999999 0 = inr 5
  /\ Main.elapsed_minutes 0 300000000 = inr (-5)
  /\ Main.elapsed_minutes (315576000 * 60000000 - 1) 0 = inr 315576000
  /\ Z.quot (315576000 * 60000000 - 1) 60000000 = 315575999.
Proof. repeat split; vm_compute; reflexivity. Qed.

(** C2, counterexample: emergency 0 is CANCELLED; an update to ACTIVE is
    accepted and takes effect, and so is a second update to CANCELLED; after
    the two updates to a terminal state the store holds no
    EmergencyStatusUpdate record. *)
Lemma terminal_emergency_update_accepted :
  Emergency.status <$> emergencies (db Scenario.world2) !! 0%N = Some "CANCELLED"
  /\ (exists w',
        Main.update_emergency Scenario.lib 0%N
          (Main.mkEmergencyUpdate ACTIVE None) Scenario.world2
        = (inr (PyDict {[ "message" := PyStr "Emergency updated successfully" ]}),
           w')
        /\ Emergency.status <$> emergencies (db w') !! 0%N = Some "ACTIVE")
  /\ exists w',
       Main.update_emergency Scenario.lib 0%N
         (Main.mkEmergencyUpdate CANCELLED None) Scenario.world2
       = (inr (PyDict {[ "message" := PyStr "Emergency updated successfully" ]}),
          w')
       /\ Emergency.status <$> emergencies (db w') !! 0%N = Some "CANCELLED"
       /\ emergency_status_updates (db w') = ∅.
Proof.
  split; [vm_compute; reflexivity |]. split.
  - eexists. split; vm_compute; reflexivity.
  - eexists. split; [vm_compute; reflexivity |]. split; vm_compute; reflexivity.
Qed.

(** C2 at emergency 0, already CANCELLED, updated to ACTIVE. *)
Lemma update_emergency_accepts_any_status_witness :
  emergencies (db Scenario.world2) !! 0%N = Some Scenario.emergency2
  /\ Emergency.status Scenario.emergency2 = "CANCELLED"
  /\ ACTIVE <> RESOLVED
  /\ exists w' e',
    Main.update_emergency Scenario.lib 0%N
      (Main.mkEmergencyUpdate ACTIVE (Some "false alarm withdrawn"))
      Scenario.world2
    = (inr (PyDict {[ "message" := PyStr "Emergency updated successfully" ]}), w')
    /\ emergencies (db w') !! 0%N = Some e'
    /\ Emergency.status e' = "ACTIVE"
    /\ Emergency.notes e' = Some "false alarm withdrawn"
    /\ emergency_status_updates (db w')
       = emergency_status_updates (db Scenario.world2).
Proof.
  split; [vm_compute; reflexivity |]. split; [reflexivity |].
  split; [discriminate |].
  apply (update_emergency_accepts_any_status Scenario.lib Scenario.world2 0%N
           Scenario.emergency2
           (Main.mkEmergencyUpdate ACTIVE (Some "false alarm withdrawn"))).
  - vm_compute. reflexivity.
  - discriminate.
Defined.

(** C7 at emergency 0, created at 0 and resolved at the third reading of
    the clock, five minutes later: the update raises and the row stays
    ACTIVE, without a response time. *)
Lemma resolved_update_is_refused_witness :
  emergencies (db Scenario.world1) !! 0%N = Some Scenario.emergency1
  /\ Emergency.created_at Scenario.emergency1 = Some 0
  /\ Main.elapsed_minutes (clock Scenario.lib (S (ticks Scenario.world1))) 0
     = inr 5
  /\ Emergency.status Scenario.emergency1 = "ACTIVE"
  /\ Emergency.actual_response_time Scenario.emergency1 = None
  /\ exists r w',
    Main.update_emergency Scenario.lib 0%N
      (Main.mkEmergencyUpdate RESOLVED None) Scenario.world1 = (r, w')
    /\ (RESOLVED = RESOLVED ->
        r = inl StatementError
        /\ db w' = db Scenario.world1 /\ stdout w' = stdout Scenario.world1)
    /\ (RESOLVED <> RESOLVED ->
        exists e',
          r = inr (PyDict {[ "message" :=
                               PyStr "Emergency updated successfully" ]})
          /\ emergencies (db w') !! 0%N = Some e'
          /\ Emergency.actual_response_time e'
             = Emergency.actual_response_time Scenario.emergency1).
Proof.
  split; [vm_compute; reflexivity |]. split; [reflexivity |].
  split; [vm_compute; reflexivity |]. split; [reflexivity |].
  split; [reflexivity |].
  apply (resolved_update_is_refused Scenario.lib Scenario.world1 0%N
           Scenario.emergency1 (Main.mkEmergencyUpdate RESOLVED None) 0 5).
  - vm_compute. reflexivity.
  - reflexivity.
  - vm_compute. reflexivity.
Defined.

(** ** Context enrichment *)

Section ProviderRules.

Import Effects.

Variable svc : Services.

Lemma only_calls_transcribe audio r :
  transcribe svc audio = r ->
  only_calls (Provider.transcribe svc audio) r [CallTranscribe audio].
Proof. intros <- w. reflexivity. Qed.

Lemma only_calls_detect_language text r :
  detect_language svc text = r ->
  only_calls (Provider.detect_language svc text) r [CallDetectLanguage text].
Proof. intros <- w. reflexivity. Qed.

Lemma only_calls_translate text r :
  translate svc text = r ->
  only_calls (Provider.translate svc text) r [CallTranslate text].
Proof. intros <- w. reflexivity. Qed.

Lemma only_calls_classify text r :
  classify svc text = r ->
  only_calls (Provider.classify svc text) r [CallClassify text].
Proof. intros <- w. reflexivity. Qed.

Lemma only_calls_actor_call actor run_input r :
  actor_call svc actor run_input = r ->
  only_calls (Provider.actor_call svc actor run_input) r
             [CallActor actor run_input].
Proof. intros <- w. reflexivity. Qed.

Lemma outcome_actor_call (P : Call -> Prop) actor run_input :
  P (CallActor actor run_input) ->
  outcome (fun _ => True) P (Provider.actor_call svc actor run_input).
Proof.
  intros HP. exists (actor_call svc actor run_input), [CallActor actor run_input].
  split; [by apply only_calls_actor_call |]. split; [done | by constructor].
Qed.

End ProviderRules.

(** Straight-line code whose calls go to Apify actors. *)
Ltac effects :=
  repeat first
    [ apply outcome_ret; exact I
    | apply outcome_lift; exact I
    | apply outcome_actor_call; done
    | eapply (outcome_bind (fun _ => True)); [ | intros ? _ | intros; exact I ] ].

(** Symbolic execution once the results of the providers are known. *)
Ltac atom :=
  first [ apply only_calls_ret
        | apply only_calls_lift
        | apply only_calls_actor_call; eassumption
        | apply only_calls_transcribe; eassumption
        | apply only_calls_detect_language; eassumption
        | apply only_calls_translate; eassumption
        | apply only_calls_classify; eassumption
        | eassumption ].

Ltac exec :=
  repeat first
    [ atom
    | eapply only_calls_bind_ok; [ solve [atom] | ]
    | eapply only_calls_bind_err; solve [atom] ].

Section Enrichment.

Import Effects ApifyDataCollector.

Variable lib : Library.

Lemma weather_total svc location :
  outcome succeeds actor_only (_get_weather_data svc location).
Proof.
  unfold _get_weather_data.
  eapply (outcome_try (fun _ => True)).
  - effects.
  - intros a _. by exists a.
  - intros e _. apply outcome_ret. by eexists.
Qed.




Lemma traffic_total svc location :
  outcome succeeds actor_only (_get_traffic_data svc location).
Proof.
  unfold _get_traffic_data.
  eapply (outcome_try (fun _ => True)).
  - effects.
  - intros a _. by exists a.
  - intros e _. apply outcome_ret. by eexists.
Qed.



Lemma stations_total svc actor location :
  outcome succeeds actor_only (_get_stations svc actor location).
Proof.
  unfold _get_stations.
  eapply (outcome_try (fun _ => True)).
  - effects.
  - intros a _. by exists a.
  - intros e _. apply outcome_ret. by eexists.
Qed.



(** The facilities sub-query returns the empty dictionary or one entry
    that holds the list of its actor. *)
Lemma facilities_run svc location emergency_type :
  exists stations cs,
    Forall actor_only cs
    /\ only_calls (_get_facilities_data svc location emergency_type)
         (inr (if String.eqb emergency_type "MEDICAL" then
                 {[ "hospitals" := stations ]}
               else if String.eqb emergency_type "FIRE" then
                 {[ "fire_stations" := stations ]}
               else if String.eqb emergency_type "POLICE" then
                 {[ "police_stations" := stations ]}
               else ∅)) cs.
Proof.
  unfold _get_facilities_data, _get_hospitals, _get_fire_stations,
    _get_police_stations.
  destruct (String.eqb emergency_type "MEDICAL");
    [ destruct (stations_total svc "apify/hospitals" location)
        as (r & cs & Hs & [v ->] & HP)
    | destruct (String.eqb emergency_type "FIRE");
      [ destruct (stations_total svc "apify/fire-stations" location)
          as (r & cs & Hs & [v ->] & HP)
      | destruct (String.eqb emergency_type "POLICE");
        [ destruct (stations_total svc "apify/police-stations" location)
            as (r & cs & Hs & [v ->] & HP) | ] ] ].
  1-3: exists v, cs; split; [exact HP |];
       apply only_calls_try_ok;
       by apply (only_calls_bind_ret _ (fun x => {[ _ := x ]})).
  exists PyNone, (@nil Call). split; [constructor |].
  apply only_calls_try_ok; exec.
Qed.



Lemma context_run svc location emergency_type wv tv fv cs1 cs2 cs3 :
  only_calls (_get_weather_data svc location) (inr wv) cs1 ->
  only_calls (_get_traffic_data svc location) (inr tv) cs2 ->
  only_calls (_get_facilities_data svc location emergency_type) (inr fv) cs3 ->
  only_calls (get_emergency_context svc lib location emergency_type)
    (inr (PyDict (fv ∪ {[ "weather" := wv; "traffic" := tv ]})))
    (cs1 ++ cs2 ++ cs3 ++ [])%list.
Proof.
  intros Hw Ht Hf. unfold get_emergency_context.
  apply only_calls_try_ok. exec.
Qed.

(** The enrichment never raises. *)
Lemma context_total svc location emergency_type :
  exists ctx cs,
    only_calls (get_emergency_context svc lib location emergency_type)
               (inr (PyDict ctx)) cs
    /\ Forall actor_only cs.
Proof.
  destruct (weather_total svc location) as (? & cs1 & Hw & [wv ->] & H1).
  destruct (traffic_total svc location) as (? & cs2 & Ht & [tv ->] & H2).
  destruct (facilities_run svc location emergency_type)
    as (stations & cs3 & H3 & Hf).
  eexists _, _. split; [exact (context_run _ _ _ _ _ _ _ _ _ Hw Ht Hf) |].
  rewrite !Forall_app. repeat split; done.
Qed.





End Enrichment.

(** ** The coordinator *)

Section ProviderOutcomes.

Import Effects.

Variable svc : Services.
Variable P : Call -> Prop.

Lemma outcome_transcribe audio :
  P (CallTranscribe audio) ->
  outcome (fun _ => True) P (Provider.transcribe svc audio).
Proof.
  intros HP. exists (transcribe svc audio), [CallTranscribe audio].
  split; [by apply only_calls_transcribe |]. split; [done | by constructor].
Qed.

Lemma outcome_detect_language text :
  P (CallDetectLanguage text) ->
  outcome (fun _ => True) P (Provider.detect_language svc text).
Proof.
  intros HP. exists (detect_language svc text), [CallDetectLanguage text].
  split; [by apply only_calls_detect_language |]. split; [done | by constructor].
Qed.

Lemma outcome_translate text :
  P (CallTranslate text) ->
  outcome (fun _ => True) P (Provider.translate svc text).
Proof.
  intros HP. exists (translate svc text), [CallTranslate text].
  split; [by apply only_calls_translate |]. split; [done | by constructor].
Qed.

Lemma outcome_classify text :
  P (CallClassify text) ->
  outcome (fun _ => True) P (Provider.classify svc text).
Proof.
  intros HP. exists (classify svc text), [CallClassify text].
  split; [by apply only_calls_classify |]. split; [done | by constructor].
Qed.

(** The enrichment never raises and calls Apify actors only. *)
Lemma outcome_context lib location emergency_type :
  (forall actor run_input, P (CallActor actor run_input)) ->
  outcome (fun _ => True) P
    (ApifyDataCollector.get_emergency_context svc lib location emergency_type).
Proof.
  intros HP.
  destruct (context_total lib svc location emergency_type)
    as (ctx & cs & Hrun & Hcs).
  eexists _, _. split; [exact Hrun |]. split; [done |].
  eapply Forall_impl; [exact Hcs |]. intros [] []. apply HP.
Qed.

End ProviderOutcomes.

(** A stage of the coordinator: a provider call, a branch, a return. *)
Ltac stage :=
  repeat first
    [ apply outcome_ret; exact I
    | apply outcome_raise; exact I
    | apply outcome_lift; exact I
    | apply outcome_transcribe; done
    | apply outcome_detect_language; done
    | apply outcome_translate; done
    | apply outcome_classify; done
    | apply outcome_context; done
    | match goal with
      | |- Effects.outcome _ _ (if ?c then _ else _) => destruct c
      end
    | eapply (outcome_bind (fun _ => True)); [ | intros ? _ | intros; exact I ] ].

Section Coordinator.

Import Effects EmergencyCoordinator.

Variable svc : Services.
Variable lib : Library.

(** [process_emergency] only consults the providers; it returns a typed
    record or raises the wrapped exception. *)
Lemma process_emergency_outcome text audio location :
  outcome
    (fun r => match r with
              | inr v => typed_record v
              | inl e => exists cause,
                  e = Exception ("Failed to process emergency: "
                                 ++ py_str lib cause)
              end)
    (fun _ => True)
    (process_emergency svc lib text audio location).
Proof.
  unfold process_emergency.
  eapply (outcome_try
            (fun r => match r with inr v => typed_record v | inl _ => True end)).
  - repeat (eapply (outcome_bind (fun _ => True));
              [ solve [stage] | intros ? _ | intros; exact I ]).
    apply outcome_ret. do 3 eexists. split; [reflexivity |].
    split; reflexivity.
  - auto.
  - intros e _. apply outcome_raise. by exists e.
Qed.


End Coordinator.

(** ** The report endpoint *)

Section Report.

Import Effects Main.

Variable svc : Services.
Variable lib : Library.


End Report.


(** That request, evaluated: the caller receives status 500
    with the wrapped message of the provider, and the store stays empty. *)
Example classifier_down_report :
  exists w',
    Main.report_emergency Scenario.svc_no_classifier Scenario.lib
      None (Some "Fire in the kitchen") None None Scenario.world0
    = (inl (HTTPException 500
         "Failed to process emergency: Classification failed: model unavailable"),
       w')
    /\ db w' = empty_db.
Proof. eexists. split; vm_compute; reflexivity. Qed.

(** ** Reports without text and audio *)

Section NoInput.

Import Main.

Variable svc : Services.
Variable lib : Library.

(** C5 (what the code does): a report with neither audio nor text, or with
    an empty text, raises the 400 exception inside the handler's own [try];
    the [except Exception] branch turns it into status 500. No provider is
    called and no table changes. *)
Theorem report_emergency_without_input (text : option string)
    (lat lon : option float) (w : World) :
  truthy_str text = false ->
  exists w',
    report_emergency svc lib None text lat lon w
    = (inl (HTTPException 500
         (py_str lib (HTTPException 400 "Either audio or text must be provided"))),
       w')
    /\ db w' = db w
    /\ calls w' = calls w.
Proof.
  intros Htext.
  unfold report_emergency, Session.get_db, logger. run_M.
  rewrite Htext. simpl. eexists. split; [reflexivity |]. split; reflexivity.
Qed.

End NoInput.

(** C5 at the request that carries nothing. *)
Lemma report_emergency_without_input_witness :
  truthy_str None = false
  /\ exists w',
       Main.report_emergency Scenario.svc Scenario.lib None None None None
         Scenario.world0
       = (inl (HTTPException 500
            (py_str Scenario.lib
               (HTTPException 400 "Either audio or text must be provided"))),
          w')
       /\ db w' = db Scenario.world0
       /\ calls w' = calls Scenario.world0.
Proof.
  split; [reflexivity |].
  apply (report_emergency_without_input Scenario.svc Scenario.lib None None None
           Scenario.world0).
  reflexivity.
Defined.

Section RequestLevel.

Import Effects EmergencyCoordinator.

Variable lib : Library.


End RequestLevel.

(** ** Which text the pipeline works on *)

Section TextAndAudio.

Import Effects EmergencyCoordinator.

Variable svc : Services.
Variable lib : Library.

Lemma truthy_str_nonempty (t : string) : t <> "" -> truthy_str (Some t) = true.
Proof.
  intros Hne. unfold truthy_str.
  destruct (String.eqb_spec t ""); [contradiction | reflexivity].
Qed.

(** C6 (as the code has it): when a report supplies a text that is not
    empty, with or without audio, the Transcription Provider is not called:
    the first provider call is the language detection of that text, and no
    later call is a transcription or a detection or translation of any other
    text. *)
Theorem provided_text_takes_precedence
    (t : string) (audio : option bytes) (location : option pyval) :
  t <> "" ->
  exists r cs,
    only_calls (process_emergency svc lib (Some t) audio location) r
               (CallDetectLanguage t :: cs)
    /\ Forall (downstream_of t) cs.
Proof.
  intros Hne.
  assert (Hrest : exists f,
    (forall w, process_emergency svc lib (Some t) audio location w
               = try_except (Provider.detect_language svc t ≫= f)
                   (fun e => raise (Exception ("Failed to process emergency: "
                                               ++ py_str lib e))) w)
    /\ forall lang, outcome (fun _ => True) (downstream_of t) (f lang)).
  { eexists. split.
    - intros w. unfold process_emergency, try_except.
      rewrite (truthy_str_nonempty t Hne), andb_false_r.
      unfold mbind at 1, M_bind at 1, mret at 1, M_ret at 1. cbv beta iota.
      rewrite (truthy_str_nonempty t Hne). simpl negb. cbv iota.
      unfold mbind at 1, M_bind at 1, mret at 1, M_ret at 1. cbv beta iota.
      simpl (default "" (Some t)). reflexivity.
    - intros lang. simpl.
      repeat (eapply (outcome_bind (fun _ => True));
                [ solve [stage] | intros ? _ | intros; exact I ]).
      by apply outcome_ret. }
  destruct Hrest as (f & Hext & Hrest).
  destruct (detect_language svc t) as [e|lang] eqn:Hdetect.
  - eexists _, []. split; [| constructor].
    eapply only_calls_ext; [exact Hext |].
    eapply only_calls_calls;
      [ eapply only_calls_try_err; [exec | apply only_calls_raise] | reflexivity ].
  - destruct (Hrest lang) as (r & cs & Hrun & _ & Hcs).
    destruct r as [e|v].
    + eexists _, _. split; [| exact Hcs].
      eapply only_calls_ext; [exact Hext |].
      eapply only_calls_calls;
        [ eapply only_calls_try_err; [exec | apply only_calls_raise] |].
      simpl. by rewrite app_nil_r.
    + eexists _, _. split; [| exact Hcs].
      eapply only_calls_ext; [exact Hext |].
      eapply only_calls_calls; [ eapply only_calls_try_ok; exec |].
      reflexivity.
Qed.


End TextAndAudio.

(** C6, counterexample: a report with both a text and an audio clip; the
    speech service is not called and the record carries the text of the
    report, not the transcription. *)
Lemma text_wins_over_audio :
  exists record details w',
    EmergencyCoordinator.process_emergency Scenario.svc Scenario.lib
      (Some "Fire in the kitchen") (Some (Main.read Scenario.audio_clip)) None
      Scenario.world0
    = (inr (PyDict record), w')
    /\ calls w' = [CallDetectLanguage "Fire in the kitchen";
                   CallClassify "Fire in the kitchen"]
    /\ record !! "details" = Some (PyDict details)
    /\ details !! "original_text" = Some (PyStr "Fire in the kitchen")
    /\ exists transcription,
         transcribe Scenario.svc (Main.read Scenario.audio_clip)
         = inr transcription
         /\ t_text transcription <> "Fire in the kitchen".
Proof.
  do 3 eexists. split; [vm_compute; reflexivity |].
  split; [reflexivity |]. split; [vm_compute; reflexivity |].
  split; [vm_compute; reflexivity |].
  eexists. split; [reflexivity | discriminate].
Qed.

(** C6 at a report with a text and an audio clip. *)
Lemma provided_text_takes_precedence_witness :
  "Fire in the kitchen" <> ""
  /\ exists r cs,
       Effects.only_calls
         (EmergencyCoordinator.process_emergency Scenario.svc Scenario.lib
            (Some "Fire in the kitchen") (Some (Main.read Scenario.audio_clip))
            None)
         r (CallDetectLanguage "Fire in the kitchen" :: cs)
       /\ Forall (Effects.downstream_of "Fire in the kitchen") cs.
Proof.
  split; [discriminate |].
  apply (provided_text_takes_precedence Scenario.svc Scenario.lib).
  discriminate.
Defined.



(** ** Enrichment failures and the request *)

Section Degradation.

Import Effects ApifyDataCollector EmergencyCoordinator.

Variable lib : Library.


End Degradation.


(** The two contexts for a fire at [here], evaluated. *)
Example weather_down_context :
  exists w w' traffic fire_stations,
    ApifyDataCollector.get_emergency_context Scenario.svc_actors Scenario.lib
      Scenario.here "FIRE" Scenario.world0
    = (inr (PyDict {[ "weather" := PyDict {[ "temperature" := PyInt 21;
                                              "conditions" := PyStr "clear";
                                              "wind_speed" := PyInt 3;
                                              "visibility" := PyInt 10 ]};
                      "traffic" := traffic;
                      "fire_stations" := fire_stations ]}), w)
    /\ ApifyDataCollector.get_emergency_context Scenario.svc_no_weather
         Scenario.lib Scenario.here "FIRE" Scenario.world0
       = (inr (PyDict {[ "weather" := ApifyDataCollector.weather_default;
                         "traffic" := traffic;
                         "fire_stations" := fire_stations ]}), w')
    /\ traffic = PyDict {[ "congestion_level" := PyStr "low";
                           "average_speed" := PyInt 40;
                           "incidents" := PyList [] ]}
    /\ fire_stations = PyList [].
Proof.
  do 4 eexists. split; [vm_compute; reflexivity |].
  split; [vm_compute; reflexivity |]. split; reflexivity.
Qed.

(** ** The other methods of the coordinator *)

Section Priority.

Import CoordinatorHelpers.





End Priority.


Section NotifyHelpers.

Import CoordinatorHelpers.

Variable lib : Library.

(** X2: [update_emergency_status] fails on every call: it passes
    [notification_type] to [send_notification], whose parameters are
    [channel] and [data], so the call is a [TypeError], which is raised again
    wrapped; nothing is printed and nothing else changes. *)
Theorem update_emergency_status_always_raises
    (emergency_id new_status : string)
    (update_data : option (gmap string pyval)) (w : World) :
  update_emergency_status lib emergency_id new_status update_data w
  = (inl (Exception ("Failed to update emergency status: "
                     ++ py_str lib TypeError)), w).
Proof. reflexivity. Qed.

(** X3: [_notify_services] returns without any effect for an empty list of
    services; for any other list it fails at the first service, for the same
    reason, before anything is sent. *)
Theorem notify_services_fails_unless_empty
    (emergency_details : gmap string pyval)
    (required_services : list (pyval * pyval)) (w : World) :
  _notify_services lib emergency_details required_services w
  = (if bool_decide (required_services = []) then inr tt
     else inl (Exception ("Failed to notify services: " ++ py_str lib TypeError)),
     w).
Proof.
  destruct required_services as [|[service_type confidence] rest];
    reflexivity.
Qed.

End NotifyHelpers.

(** ** Calls after a known prefix *)

Section AfterPrefix.

Import Effects.

Context {A B : Type}.

(** In these rules [m] makes the calls [prefix], then calls that satisfy
    [P]. *)
Lemma after_outcome (P : Call -> Prop) (m : M A) :
  outcome (fun _ => True) P m ->
  exists r cs, only_calls m r ([] ++ cs)%list /\ Forall P cs.
Proof. intros (r & cs & Hm & _ & HP). by exists r, cs. Qed.

Lemma after_bind_ret (P : Call -> Prop) (m : M A) (f : A -> M B) a prefix :
  only_calls m (inr a) [] ->
  (exists r cs, only_calls (f a) r (prefix ++ cs)%list /\ Forall P cs) ->
  exists r cs, only_calls (m ≫= f) r (prefix ++ cs)%list /\ Forall P cs.
Proof.
  intros Hm (r & cs & Hf & HP). exists r, cs. split; [| done].
  change (prefix ++ cs)%list with ([] ++ (prefix ++ cs))%list.
  by eapply only_calls_bind_ok.
Qed.

Lemma after_bind_call (P : Call -> Prop) (m : M A) (f : A -> M B) a c prefix :
  only_calls m (inr a) [c] ->
  (exists r cs, only_calls (f a) r (prefix ++ cs)%list /\ Forall P cs) ->
  exists r cs, only_calls (m ≫= f) r ((c :: prefix) ++ cs)%list /\ Forall P cs.
Proof.
  intros Hm (r & cs & Hf & HP). exists r, cs. split; [| done].
  change ((c :: prefix) ++ cs)%list with ([c] ++ (prefix ++ cs))%list.
  by eapply only_calls_bind_ok.
Qed.

Lemma after_bind_any (P : Call -> Prop) (m : M A) (f : A -> M B) r c :
  only_calls m r [c] ->
  (forall a, r = inr a ->
     exists r' cs, only_calls (f a) r' ([] ++ cs)%list /\ Forall P cs) ->
  exists r' cs, only_calls (m ≫= f) r' ([c] ++ cs)%list /\ Forall P cs.
Proof.
  intros Hm Hf. destruct r as [e|a].
  - exists (inl e), []. split; [by apply only_calls_bind_err | constructor].
  - destruct (Hf a eq_refl) as (r & cs & Hfa & HP). exists r, cs.
    split; [| done]. by eapply only_calls_bind_ok.
Qed.

End AfterPrefix.

Lemma after_try_raise {A} (P : Call -> Prop) (m : M A) (g : exn -> exn) prefix :
  (exists r cs, Effects.only_calls m r (prefix ++ cs)%list /\ Forall P cs) ->
  exists r cs,
    Effects.only_calls (try_except m (fun e => raise (g e))) r (prefix ++ cs)%list
    /\ Forall P cs.
Proof.
  intros (r & cs & Hm & HP). destruct r as [e|a].
  - exists (inl (g e)), cs. split; [| done].
    rewrite <- (app_nil_r (prefix ++ cs)).
    eapply only_calls_try_err; [exact Hm | apply only_calls_raise].
  - exists (inr a), cs. split; [by apply only_calls_try_ok | done].
Qed.

(** ** More on the coordinator's pipeline *)

Section Pipeline.

Import Effects EmergencyCoordinator.

Variable svc : Services.
Variable lib : Library.

(** X4: every record [process_emergency] returns is built from one answer
    of the classification provider: its type and priority are the
    classifier's (the confidence does not adjust the priority), its
    [original_text] is the text that was classified, and its
    [required_services] is the resolver's answer for the record's own type
    and confidence. *)
Theorem record_is_built_from_the_classification
    (text : option string) (audio : option bytes) (location : option pyval)
    (w w' : World) (record : pyval) :
  process_emergency svc lib text audio location w = (inr record, w') ->
  exists classified c context,
    classify svc classified = inr c
    /\ record = PyDict
         {[ "type" := PyStr (EmergencyClassifier.c_type c);
            "priority" := PyStr (EmergencyClassifier.c_priority c);
            "details" := PyDict
              {[ "original_text" := PyStr classified;
                 "location" := of_option id location;
                 "confidence" := PyFloat (EmergencyClassifier.c_confidence c);
                 "required_services" :=
                   PyDict (PyBool <$>
                     EmergencyClassifier.get_required_services
                       (EmergencyClassifier.c_type c)
                       (EmergencyClassifier.c_confidence c));
                 "context" := context ]} ]}.
Proof.
  intros Hrun.
  set (shape := fun v : pyval => exists classified c context,
    classify svc classified = inr c
    /\ v = PyDict
         {[ "type" := PyStr (EmergencyClassifier.c_type c);
            "priority" := PyStr (EmergencyClassifier.c_priority c);
            "details" := PyDict
              {[ "original_text" := PyStr classified;
                 "location" := of_option id location;
                 "confidence" := PyFloat (EmergencyClassifier.c_confidence c);
                 "required_services" :=
                   PyDict (PyBool <$>
                     EmergencyClassifier.get_required_services
                       (EmergencyClassifier.c_type c)
                       (EmergencyClassifier.c_confidence c));
                 "context" := context ]} ]}).
  assert (Hout : outcome (fun r => match r with inr v => shape v | inl _ => True end)
                   (fun _ => True)
                   (process_emergency svc lib text audio location)).
  { unfold process_emergency.
    eapply (outcome_try
              (fun r => match r with inr v => shape v | inl _ => True end)).
    - do 4 (eapply (outcome_bind (fun _ => True));
              [ solve [stage] | intros ? _ | intros; exact I ]).
      match goal with
      | |- outcome _ _ (Provider.classify _ ?t ≫= _) =>
          eapply (outcome_bind (fun r => r = classify svc t));
            [ exists (classify svc t), [CallClassify t];
              split; [by apply only_calls_classify |];
              split; [reflexivity | by constructor]
            | intros c Hc | intros; exact I ]
      end.
      eapply (outcome_bind (fun _ => True));
        [ solve [stage] | intros context _ | intros; exact I ].
      apply outcome_ret. unfold shape. eauto.
    - auto.
    - intros e _. by apply outcome_raise. }
  destruct Hout as (r & cs & Honly & HR & _).
  rewrite Honly in Hrun. injection Hrun as -> _. exact HR.
Qed.

(** X5: without a text (absent or empty) and without audio (absent or
    empty), [process_emergency] raises the wrapped "No text input provided"
    and calls no provider. *)
Theorem no_input_calls_no_provider
    (text : option string) (audio : option bytes) (location : option pyval) :
  truthy_str text = false ->
  truthy_bytes audio = false ->
  only_calls (process_emergency svc lib text audio location)
    (inl (Exception ("Failed to process emergency: "
                     ++ py_str lib (Exception "No text input provided"))))
    [].
Proof.
  intros Htext Haudio. unfold process_emergency. rewrite Haudio. simpl.
  eapply only_calls_calls.
  - eapply only_calls_try_err; [| apply only_calls_raise].
    eapply only_calls_bind_ok; [apply only_calls_ret |].
    cbv beta. rewrite Htext. simpl.
    eapply only_calls_bind_err. apply only_calls_raise.
  - reflexivity.
Qed.

(** X6: with audio and no text, the first call transcribes exactly these
    bytes. When the transcription fails, or its text is empty, the request
    fails after that single call; otherwise the transcribed text is what
    language detection receives, and no later call detects or translates
    another text or transcribes again. *)
Theorem audio_is_transcribed_without_text
    (text : option string) (audio : bytes) (location : option pyval) :
  truthy_str text = false ->
  audio <> [] ->
  exists r cs,
    only_calls (process_emergency svc lib text (Some audio) location) r
               (CallTranscribe audio :: cs)
    /\ (forall e, transcribe svc audio = inl e ->
          cs = []
          /\ r = inl (Exception ("Failed to process emergency: "
                                 ++ py_str lib e)))
    /\ (forall t, transcribe svc audio = inr t -> t_text t = "" ->
          cs = []
          /\ r = inl (Exception ("Failed to process emergency: "
                   ++ py_str lib (Exception "No text input provided"))))
    /\ (forall t, transcribe svc audio = inr t -> t_text t <> "" ->
          exists cs', cs = CallDetectLanguage (t_text t) :: cs'
                      /\ Forall (downstream_of (t_text t)) cs').
Proof.
  intros Htext Haudio.
  assert (Hcond : truthy_bytes (Some audio) && negb (truthy_str text) = true).
  { rewrite Htext. destruct audio; [contradiction | reflexivity]. }
  destruct (transcribe svc audio) as [e|t] eqn:Htr.
  - exists (inl (Exception ("Failed to process emergency: " ++ py_str lib e))), [].
    split; [| split; [intros ? [= <-]; done | split; intros ? [=]]].
    unfold process_emergency. rewrite Hcond. simpl.
    eapply only_calls_calls.
    + eapply only_calls_try_err; [| apply only_calls_raise].
      eapply only_calls_bind_err. eapply only_calls_bind_err.
      apply only_calls_transcribe. exact Htr.
    + reflexivity.
  - destruct (String.eqb_spec (t_text t) "") as [Hempty|Hne].
    + exists (inl (Exception ("Failed to process emergency: "
                 ++ py_str lib (Exception "No text input provided")))), [].
      split; [| split; [intros ? [=] | split; [intros ? [= <-]; done |]]].
      * unfold process_emergency. rewrite Hcond. simpl.
        eapply only_calls_calls.
        -- eapply only_calls_try_err; [| apply only_calls_raise].
           eapply only_calls_bind_ok.
           { eapply only_calls_bind_ok;
               [apply only_calls_transcribe; exact Htr | apply only_calls_ret]. }
           cbv beta. unfold truthy_str. rewrite Hempty. simpl.
           eapply only_calls_bind_err. apply only_calls_raise.
        -- reflexivity.
      * intros ? [= <-] Hne. contradiction.
    + assert (Hafter : exists r cs,
        only_calls (process_emergency svc lib text (Some audio) location) r
          ([CallTranscribe audio; CallDetectLanguage (t_text t)] ++ cs)%list
        /\ Forall (downstream_of (t_text t)) cs).
      { unfold process_emergency. rewrite Hcond.
        apply (after_try_raise _ _
                 (fun e => Exception ("Failed to process emergency: "
                                      ++ py_str lib e))).
        eapply after_bind_call.
        { apply (only_calls_bind_ret _ (fun x => Some (t_text x))).
          apply only_calls_transcribe. exact Htr. }
        cbv beta. rewrite (truthy_str_nonempty _ Hne). simpl negb. cbv iota.
        simpl (default _ _).
        eapply after_bind_ret; [apply only_calls_ret |].
        eapply after_bind_any;
          [apply only_calls_detect_language; reflexivity |].
        intros lang _. apply after_outcome.
        repeat (eapply (outcome_bind (fun _ => True));
                  [ solve [stage] | intros ? _ | intros; exact I ]).
        by apply outcome_ret. }
      destruct Hafter as (r & cs & Hrun & Hcs).
      exists r, (CallDetectLanguage (t_text t) :: cs).
      split; [exact Hrun |].
      split; [intros ? [=] | split; [intros ? [= <-] ?; contradiction |]].
      intros ? [= <-] _. by exists cs.
Qed.

(** X7: [process_emergency] reads no clock and draws no identifier, and
    writes neither to the store, the session, the standard output nor the
    log: it only consults providers. Every exception it raises is an
    [Exception] whose message is "Failed to process emergency: " followed by
    the text of the cause. *)
Theorem process_emergency_only_consults_providers
    (text : option string) (audio : option bytes) (location : option pyval)
    (w : World) :
  exists r w' cs,
    process_emergency svc lib text audio location w = (r, w')
    /\ w' = add_calls cs w
    /\ db w' = db w /\ session w' = session w /\ stdout w' = stdout w
    /\ log w' = log w /\ ticks w' = ticks w /\ draws w' = draws w
    /\ (forall e, r = inl e ->
          exists cause,
            e = Exception ("Failed to process emergency: " ++ py_str lib cause)).
Proof.
  destruct (process_emergency_outcome svc lib text audio location)
    as (r & cs & Hrun & HR & _).
  exists r, (add_calls cs w), cs. split; [apply Hrun |].
  repeat (split; [reflexivity |]).
  intros e ->. exact HR.
Qed.

End Pipeline.

(** X4 at the text report of the scenario. *)
Lemma record_is_built_from_the_classification_witness :
  exists classified c context,
    classify Scenario.svc classified = inr c
    /\ match (EmergencyCoordinator.process_emergency Scenario.svc Scenario.lib
                (Some "Fire in the kitchen") None None Scenario.world0).1 with
       | inr record => record
       | inl _ => PyNone
       end
       = PyDict
         {[ "type" := PyStr (EmergencyClassifier.c_type c);
            "priority" := PyStr (EmergencyClassifier.c_priority c);
            "details" := PyDict
              {[ "original_text" := PyStr classified;
                 "location" := PyNone;
                 "confidence" := PyFloat (EmergencyClassifier.c_confidence c);
                 "required_services" :=
                   PyDict (PyBool <$>
                     EmergencyClassifier.get_required_services
                       (EmergencyClassifier.c_type c)
                       (EmergencyClassifier.c_confidence c));
                 "context" := context ]} ]}.
Proof.
  apply (record_is_built_from_the_classification Scenario.svc Scenario.lib
           (Some "Fire in the kitchen") None None Scenario.world0
           (EmergencyCoordinator.process_emergency Scenario.svc Scenario.lib
              (Some "Fire in the kitchen") None None Scenario.world0).2).
  vm_compute. reflexivity.
Defined.

(** X5 at a request with an empty text and an empty audio. *)
Lemma no_input_calls_no_provider_witness :
  Effects.only_calls
    (EmergencyCoordinator.process_emergency Scenario.svc Scenario.lib
       (Some "") (Some []) (Some Scenario.here))
    (inl (Exception ("Failed to process emergency: "
                     ++ py_str Scenario.lib (Exception "No text input provided"))))
    [].
Proof.
  apply (no_input_calls_no_provider Scenario.svc Scenario.lib); reflexivity.
Defined.

(** X6 at the audio clip of the scenario. *)
Lemma audio_is_transcribed_without_text_witness :
  exists r cs,
    Effects.only_calls
      (EmergencyCoordinator.process_emergency Scenario.svc Scenario.lib None
         (Some (Main.read Scenario.audio_clip)) None) r
      (CallTranscribe (Main.read Scenario.audio_clip) :: cs)
    /\ (forall e, transcribe Scenario.svc (Main.read Scenario.audio_clip) = inl e ->
          cs = []
          /\ r = inl (Exception ("Failed to process emergency: "
                                 ++ py_str Scenario.lib e)))
    /\ (forall t, transcribe Scenario.svc (Main.read Scenario.audio_clip) = inr t ->
          t_text t = "" ->
          cs = []
          /\ r = inl (Exception ("Failed to process emergency: "
                   ++ py_str Scenario.lib (Exception "No text input provided"))))
    /\ (forall t, transcribe Scenario.svc (Main.read Scenario.audio_clip) = inr t ->
          t_text t <> "" ->
          exists cs', cs = CallDetectLanguage (t_text t) :: cs'
                      /\ Forall (Effects.downstream_of (t_text t)) cs').
Proof.
  apply (audio_is_transcribed_without_text Scenario.svc Scenario.lib None
           (Main.read Scenario.audio_clip) None).
  - reflexivity.
  - discriminate.
Defined.

(** ** The translation service *)

Section Translation.

Import TranslationService.

Lemma lower_ascii_e (c : Ascii.ascii) :
  lower_ascii c = "e"%char <-> c = "e"%char \/ c = "E"%char.
Proof.
  split.
  - destruct c as [[] [] [] [] [] [] [] []]; vm_compute; intros H;
      first [discriminate H | by left | by right].
  - intros [-> | ->]; reflexivity.
Qed.

Lemma lower_ascii_n (c : Ascii.ascii) :
  lower_ascii c = "n"%char <-> c = "n"%char \/ c = "N"%char.
Proof.
  split.
  - destruct c as [[] [] [] [] [] [] [] []]; vm_compute; intros H;
      first [discriminate H | by left | by right].
  - intros [-> | ->]; reflexivity.
Qed.

(** X8: the only language codes that are not translated are "en", "EN",
    "En" and "eN"; every other code, regional variants of English such as
    "en-US" included, goes to the Translation Provider. *)
Theorem translation_skipped_only_for_en (detected_language : string) :
  is_translation_needed detected_language = false
  <-> detected_language ∈ ["en"; "EN"; "En"; "eN"].
Proof.
  unfold is_translation_needed. rewrite negb_false_iff, String.eqb_eq.
  split.
  - destruct detected_language as [|c1 [|c2 [|c3 rest]]]; simpl;
      try discriminate.
    intros [= H1 H2]. apply lower_ascii_e in H1. apply lower_ascii_n in H2.
    destruct H1 as [-> | ->], H2 as [-> | ->]; set_solver.
  - intros Hin. repeat (apply elem_of_cons in Hin as [->|Hin]);
      [reflexivity.. | by inversion Hin].
Qed.

End Translation.

(** The regional code of American English is translated. *)
Example en_US_is_translated :
  TranslationService.is_translation_needed "en-US" = true.
Proof. reflexivity. Qed.

Section TranslationCalls.

Import TranslationClient.

Variable parent : string.
Variable first_translation : Request -> result ClientTranslation.
Variable lib : Library.

(** X9: [detect_language] and [translate] with its default arguments send
    the same request to the client. So the two fail together, each wrapping
    the cause in its own message; when they succeed, the detected language is
    the language the translation reports, as detected and as source, and
    the confidence of the detection is always 1.0. *)
Theorem detection_is_a_translation_request (text : string) :
  match detect_language parent first_translation lib text,
        translate parent first_translation lib text "en" None with
  | inr detection, inr translation =>
      l_language detection = detected_language translation
      /\ l_language detection = source_language translation
      /\ l_confidence detection = 1.0%float
      /\ target_language translation = "en"
  | inl e, inl e' =>
      exists cause,
        first_translation (mkRequest parent [text] "en" None) = inl cause
        /\ e = Exception ("Language detection failed: " ++ py_str lib cause)
        /\ e' = Exception ("Translation failed: " ++ py_str lib cause)
  | _, _ => False
  end.
Proof.
  unfold detect_language, translate. simpl.
  destruct (first_translation (mkRequest parent [text] "en" None)) as [e|t];
    [by exists e | done].
Qed.

End TranslationCalls.

(** ** More on the endpoints *)

Section Endpoints.

Import Effects Main MainQueries.

Variable svc : Services.
Variable lib : Library.

(** What one call of [report_emergency] does: it fails without writing, or
    it stores one row under the identifier it drew. *)
Lemma report_emergency_run (audio : option UploadFile) (text : option string)
    (lat lon : option float) (w : World) :
  exists r w' cs,
    report_emergency svc lib audio text lat lon w = (r, w')
    /\ calls w' = (calls w ++ cs)%list
    /\ (cs = [] \/ exists r0,
           only_calls (EmergencyCoordinator.process_emergency svc lib text
                         (read <$> audio) (Reading.location_of lat lon)) r0 cs)
    /\ ((exists detail,
           r = inl (HTTPException 500 detail)
           /\ db w' = db w /\ stdout w' = stdout w)
        \/ (exists d ty priority line,
              only_calls (EmergencyCoordinator.process_emergency svc lib text
                            (read <$> audio) (Reading.location_of lat lon))
                         (inr (PyDict d)) cs
              /\ d !! "type" = Some ty /\ d !! "priority" = Some priority
              /\ emergencies (db w) !! uuid_source lib (draws w) = None
              /\ r = inr (PyDict {[ "emergency_type" := ty;
                                    "priority_level" := priority;
                                    "response_plan" := PyDict d;
                                    "estimated_response_time" := PyNone ]})
              /\ db w' =
                 Session.put_emergency (uuid_source lib (draws w))
                   (Emergency.mk ty priority "ACTIVE" lat lon (PyDict d)
                      None None None
                      (Some (clock lib (ticks w))) (Some (clock lib (ticks w))))
                   (db w)
              /\ stdout w' = (stdout w ++ [line])%list)).
Proof.
  destruct (process_emergency_outcome svc lib text (read <$> audio)
              (Reading.location_of lat lon)) as (r0 & cs & Hrun & HR & _).
  unfold Reading.location_of in *.
  unfold report_emergency, Session.get_db, logger. run_M.
  destruct (negb (bool_decide (is_Some audio)) && negb (truthy_str text)); simpl.
  { exists (inl (HTTPException 500
              (py_str lib (HTTPException 400 "Either audio or text must be provided")))).
    eexists. exists []. split; [reflexivity |]. simpl.
    split; [by rewrite app_nil_r |]. split; [by left |]. left. eauto. }
  rewrite Hrun.
  destruct r0 as [e0|v]; simpl.
  { do 2 eexists. exists cs. split; [reflexivity |]. simpl.
    split; [reflexivity |]. split; [right; eauto |]. left. eauto. }
  destruct HR as (d & ty & priority & -> & Hty & Hpriority).
  simpl. rewrite Hty, Hpriority. simpl.
  unfold Session.add, Session.commit. simpl. run_M.
  unfold Session.insert_emergency. simpl.
  destruct (emergencies (db w) !! uuid_source lib (draws w)) eqn:Hfresh; simpl.
  { do 2 eexists. exists cs. split; [reflexivity |]. simpl.
    split; [reflexivity |]. split; [right; eauto |]. left. eauto. }
  match goal with
  | |- context [NotificationService.send_notification ?l ?c ?x ?w0] =>
      destruct (send_notification_run l c x w0) as (b & line & ->)
  end.
  simpl. rewrite ?Hty, ?Hpriority. simpl.
  do 2 eexists. exists cs. split; [reflexivity |]. simpl.
  split; [reflexivity |]. split; [right; eauto |]. right.
  exists d, ty, priority, line. repeat split; auto.
Qed.

(** X10: a report that succeeds stores exactly one new emergency, under
    the identifier that was drawn, which no stored emergency had: the row is
    ACTIVE, carries the response as its plan and the coordinates as given,
    has no notes and no response time, and is stamped with the time of the
    insertion; every other row and every other table is as before. *)
Theorem successful_report_adds_one_active_emergency
    (audio : option UploadFile) (text : option string) (lat lon : option float)
    (w w' : World) (answer : pyval) :
  report_emergency svc lib audio text lat lon w = (inr answer, w') ->
  exists row plan,
    emergencies (db w) !! uuid_source lib (draws w) = None
    /\ db w' = Session.put_emergency (uuid_source lib (draws w)) row (db w)
    /\ getitem answer "response_plan" = inr plan
    /\ Emergency.response_plan row = plan
    /\ getitem answer "emergency_type" = inr (Emergency.emergency_type row)
    /\ getitem answer "priority_level" = inr (Emergency.priority_level row)
    /\ Emergency.status row = "ACTIVE"
    /\ Emergency.location_lat row = lat /\ Emergency.location_lon row = lon
    /\ Emergency.notes row = None
    /\ Emergency.actual_response_time row = None
    /\ Emergency.created_at row = Some (clock lib (ticks w)).
Proof.
  intros Hrun.
  destruct (report_emergency_run audio text lat lon w)
    as (r & w1 & cs & Hrun' & _ & _ & Hcases).
  rewrite Hrun in Hrun'. injection Hrun' as <- <-.
  destruct Hcases as [(detail & [=] & _)
                     |(d & ty & priority & line & _ & _ & _ & Hfresh & [= ->]
                       & Hdb & _)].
  eexists _, _. split; [exact Hfresh |]. split; [exact Hdb |].
  repeat split; reflexivity.
Qed.

(** X11: after a report that succeeded, [get_emergency_status] on the new
    identifier returns the stored emergency: ACTIVE, with the type, the
    priority and the plan of the answer, without a response time; the read
    changes no table. *)
Theorem reported_emergency_can_be_read
    (audio : option UploadFile) (text : option string) (lat lon : option float)
    (w w' : World) (answer : pyval) :
  report_emergency svc lib audio text lat lon w = (inr answer, w') ->
  exists view w'',
    get_emergency_status (uuid_source lib (draws w)) w' = (inr view, w'')
    /\ db w'' = db w'
    /\ v_id view = uuid_source lib (draws w)
    /\ v_status view = "ACTIVE"
    /\ getitem answer "response_plan" = inr (v_response_plan view)
    /\ getitem answer "emergency_type" = inr (v_emergency_type view)
    /\ getitem answer "priority_level" = inr (v_priority_level view)
    /\ v_actual_response_time view = None
    /\ v_created_at view = Some (clock lib (ticks w)).
Proof.
  intros Hrun.
  destruct (report_emergency_run audio text lat lon w)
    as (r & w1 & cs & Hrun' & _ & _ & Hcases).
  rewrite Hrun in Hrun'. injection Hrun' as <- <-.
  destruct Hcases as [(detail & [=] & _)
                     |(d & ty & priority & line & _ & _ & _ & Hfresh & [= ->]
                       & Hdb & _)].
  unfold get_emergency_status, Session.get_db, Session.query_emergency. run_M.
  rewrite Hdb. simpl. rewrite lookup_insert_eq. simpl.
  eexists _, _. split; [reflexivity |]. simpl. rewrite Hdb.
  repeat split; reflexivity.
Qed.

(** What one call of [update_emergency] does, whatever it finds. *)
Lemma update_emergency_cases (emergency_id : UUID) (update : EmergencyUpdate)
    (w : World) :
  exists r w',
    update_emergency lib emergency_id update w = (r, w')
    /\ calls w' = calls w
    /\ ((exists e, r = inl e /\ db w' = db w /\ stdout w' = stdout w
                   /\ (emergencies (db w) !! emergency_id = None ->
                       e = HTTPException 404 "Emergency not found"))
        \/ (exists row row' line,
              emergencies (db w) !! emergency_id = Some row
              /\ r = inr (PyDict {[ "message" :=
                                      PyStr "Emergency updated successfully" ]})
              /\ db w' = Session.put_emergency emergency_id row' (db w)
              /\ stdout w' = (stdout w ++ [line])%list
              /\ Emergency.emergency_type row' = Emergency.emergency_type row
              /\ Emergency.priority_level row' = Emergency.priority_level row
              /\ Emergency.location_lat row' = Emergency.location_lat row
              /\ Emergency.location_lon row' = Emergency.location_lon row
              /\ Emergency.response_plan row' = Emergency.response_plan row
              /\ Emergency.estimated_response_time row'
                 = Emergency.estimated_response_time row
              /\ Emergency.created_at row' = Emergency.created_at row
              /\ Emergency.status row' = status_value (u_status update)
              /\ Emergency.notes row' = u_notes update
              /\ Emergency.updated_at row' = Some (clock lib (ticks w)))).
Proof.
  unfold update_emergency, Session.get_db, Session.query_emergency. run_M.
  destruct (emergencies (db w) !! emergency_id) as [row|] eqn:Hrow; simpl.
  2: { do 2 eexists. split; [reflexivity |]. split; [reflexivity |].
       left. eexists. repeat split; reflexivity. }
  unfold utcnow. simpl.
  destruct (bool_decide (u_status update = RESOLVED)); simpl.
  - destruct (Emergency.created_at row) as [t0|] eqn:Hcreated; simpl.
    2: { do 2 eexists. split; [reflexivity |]. split; [reflexivity |].
         left. eexists. repeat split; try reflexivity. discriminate. }
    destruct (elapsed_minutes (clock lib (S (ticks w))) t0) as [err|minutes];
      simpl.
    { do 2 eexists. split; [reflexivity |]. split; [reflexivity |].
      left. eexists. repeat split; try reflexivity. discriminate. }
    unfold Session.add, Session.commit; simpl; run_M.
    do 2 eexists. split; [reflexivity |]. split; [reflexivity |].
    left. eexists. repeat split; try reflexivity. discriminate.
  - unfold Session.add, Session.commit; simpl; run_M;
      unfold Session.update_emergency_row; simpl.
    match goal with
    | |- context [NotificationService.send_notification ?l ?c ?d ?w0] =>
        destruct (send_notification_run l c d w0) as (b & line & ->)
    end.
    simpl. do 2 eexists. split; [reflexivity |]. split; [reflexivity |].
    right. do 3 eexists. split; [reflexivity |]. split; [reflexivity |].
    split; [reflexivity |]. split; [reflexivity |]. simpl.
    repeat split; auto.
Qed.

(** X12: an update that succeeds rewrites the one row it names and
    nothing else: the other emergencies and the other tables are as before,
    and in the row itself only the status, the notes, the response time and
    [updated_at] can differ; the type, the priority, the coordinates, the
    plan and the creation time are kept. It prints one line. *)
Theorem update_touches_one_row
    (emergency_id : UUID) (update : EmergencyUpdate) (w w' : World)
    (answer : pyval) :
  update_emergency lib emergency_id update w = (inr answer, w') ->
  exists row row' line,
    emergencies (db w) !! emergency_id = Some row
    /\ emergencies (db w') !! emergency_id = Some row'
    /\ (forall other, other <> emergency_id ->
          emergencies (db w') !! other = emergencies (db w) !! other)
    /\ emergency_status_updates (db w') = emergency_status_updates (db w)
    /\ notifications (db w') = notifications (db w)
    /\ notification_subscriptions (db w') = notification_subscriptions (db w)
    /\ stdout w' = (stdout w ++ [line])%list
    /\ Emergency.emergency_type row' = Emergency.emergency_type row
    /\ Emergency.priority_level row' = Emergency.priority_level row
    /\ Emergency.location_lat row' = Emergency.location_lat row
    /\ Emergency.location_lon row' = Emergency.location_lon row
    /\ Emergency.response_plan row' = Emergency.response_plan row
    /\ Emergency.created_at row' = Emergency.created_at row
    /\ Emergency.updated_at row' = Some (clock lib (ticks w)).
Proof.
  intros Hrun.
  destruct (update_emergency_cases emergency_id update w)
    as (r & w1 & Hrun' & _ & Hcases).
  rewrite Hrun in Hrun'. injection Hrun' as <- <-.
  destruct Hcases as [(e & [=] & _)|(row & row' & line & Hrow & _ & Hdb & Hout & H)].
  exists row, row', line. rewrite Hdb. simpl.
  split; [exact Hrow |]. split; [apply lookup_insert_eq |].
  split; [intros other Hne; by apply lookup_insert_ne |].
  repeat (split; [reflexivity |]). split; [exact Hout |].
  tauto.
Qed.

(** X13: for an identifier that names no stored emergency, the update and
    the read endpoint both answer 404 "Emergency not found"; no table, no
    output and no provider is touched. *)
Theorem unknown_emergency_is_404
    (emergency_id : UUID) (update : EmergencyUpdate) (w : World) :
  emergencies (db w) !! emergency_id = None ->
  exists w1 w2,
    update_emergency lib emergency_id update w
    = (inl (HTTPException 404 "Emergency not found"), w1)
    /\ get_emergency_status emergency_id w
       = (inl (HTTPException 404 "Emergency not found"), w2)
    /\ db w1 = db w /\ stdout w1 = stdout w /\ calls w1 = calls w
    /\ db w2 = db w /\ stdout w2 = stdout w /\ calls w2 = calls w.
Proof.
  intros Hrow.
  unfold update_emergency, get_emergency_status, Session.get_db,
    Session.query_emergency.
  run_M. rewrite Hrow. simpl. eexists _, _. repeat split; reflexivity.
Qed.

(** X14: a subscription request stores a row with the four fields of the
    request under the identifier it draws, and looks at no stored
    subscription: two identical requests in a row leave two rows with the
    same fields. *)
Theorem identical_subscriptions_accumulate
    (subscription : NotificationSubscriptionCreate) (w : World) :
  let k1 := uuid_source lib (draws w) in
  let k2 := uuid_source lib (S (draws w)) in
  let row t :=
    NotificationSubscription.mk
      (sc_subscriber_type subscription) (sc_subscriber_id subscription)
      (sc_notification_type subscription) (sc_channel subscription)
      (Some t) in
  notification_subscriptions (db w) !! k1 = None ->
  notification_subscriptions (db w) !! k2 = None ->
  k1 <> k2 ->
  exists w1 w2,
    subscribe_to_notifications lib subscription w
    = (inr (PyDict {[ "message" := PyStr "Subscription created successfully" ]}),
       w1)
    /\ subscribe_to_notifications lib subscription w1
       = (inr (PyDict {[ "message" := PyStr "Subscription created successfully" ]}),
          w2)
    /\ db w1 = Session.put_subscription k1 (row (clock lib (ticks w))) (db w)
    /\ db w2 = Session.put_subscription k2 (row (clock lib (S (ticks w)))) (db w1).
Proof.
  intros k1 k2 row Hk1 Hk2 Hne.
  unfold subscribe_to_notifications, Session.get_db, Session.add,
    Session.commit.
  subst k1 k2 row. simpl. run_M.
  unfold uuid4, utcnow, Session.insert_subscription. run_M.
  rewrite Hk1. simpl.
  eexists _, _. split; [reflexivity |]. simpl.
  rewrite lookup_insert_ne by done. rewrite Hk2. simpl.
  split; [reflexivity |]. split; reflexivity.
Qed.

End Endpoints.

(** ** Reading notifications *)

Section ReadNotifications.

Import Effects Main MainQueries.

#[local] Instance newest_first_total : Total newest_first.
Proof. intros a b. unfold newest_first. lia. Qed.

#[local] Instance newest_first_trans : Transitive newest_first.
Proof. intros a b c. unfold newest_first. lia. Qed.

(** X15: [get_notifications] changes no table and returns at most 100
    rows, each a stored notification whose recipient is the subscriber, no
    row twice, the newest first; a notification of the subscriber that is
    left out is no newer than any row returned. *)
Theorem get_notifications_newest_hundred (subscriber_id : string) (w : World) :
  exists rows w',
    get_notifications subscriber_id w = (inr rows, w')
    /\ db w' = db w
    /\ (length rows <= 100)%nat
    /\ NoDup rows.*1
    /\ StronglySorted newest_first rows
    /\ (forall key n, (key, n) ∈ rows ->
          notifications (db w) !! key = Some n
          /\ Notification.recipient_id n = subscriber_id)
    /\ (forall key n kept,
          notifications (db w) !! key = Some n ->
          Notification.recipient_id n = subscriber_id ->
          (key, n) ∉ rows -> kept ∈ rows ->
          (Notification.created_at n <= Notification.created_at kept.2)%Z).
Proof.
  unfold get_notifications, Session.get_db. simpl.
  eexists _, _. split; [reflexivity |]. simpl. split; [reflexivity |].
  unfold notifications_of.
  set (matching := filter
         (fun row : UUID * Notification.t =>
            Notification.recipient_id row.2 = subscriber_id)
         (map_to_list (notifications (db w)))).
  set (sorted := merge_sort newest_first matching).
  assert (Hperm : sorted ≡ₚ matching) by apply merge_sort_Permutation.
  assert (Hsorted : StronglySorted newest_first sorted)
    by (apply StronglySorted_merge_sort; apply _).
  assert (Hin : forall key n, (key, n) ∈ sorted <->
            notifications (db w) !! key = Some n
            /\ Notification.recipient_id n = subscriber_id).
  { intros key n. rewrite Hperm. unfold matching.
    rewrite list_elem_of_filter, elem_of_map_to_list. simpl. tauto. }
  assert (Hnodup : NoDup sorted.*1).
  { rewrite Hperm. unfold matching.
    apply NoDup_fmap_fst.
    - intros k x y Hx Hy. apply list_elem_of_filter in Hx as [_ Hx].
      apply list_elem_of_filter in Hy as [_ Hy].
      apply elem_of_map_to_list in Hx, Hy. congruence.
    - apply NoDup_filter, NoDup_map_to_list. }
  rewrite <- (take_drop 100 sorted) in Hsorted, Hnodup.
  split; [rewrite length_take; lia |].
  split; [rewrite fmap_app in Hnodup; by apply NoDup_app in Hnodup as [? _] |].
  split; [by apply StronglySorted_app_1_l in Hsorted |].
  split.
  - intros key n Hrow. apply Hin. rewrite <- (take_drop 100 sorted).
    apply elem_of_app. by left.
  - intros key n kept Hstored Hrecipient Hout Hkept.
    assert (Hfull : (key, n) ∈ sorted) by (apply Hin; done).
    rewrite <- (take_drop 100 sorted) in Hfull.
    apply elem_of_app in Hfull as [Hfull|Hfull]; [contradiction |].
    exact (StronglySorted_app_1_elem_of _ _ _ _ _ Hsorted Hkept Hfull).
Qed.

End ReadNotifications.

(** ** What no request writes *)

Section Invariant.

Import Effects Main MainQueries.

Variable svc : Services.
Variable lib : Library.

Lemma subscribe_tables (subscription : NotificationSubscriptionCreate)
    (w : World) :
  let w' := (subscribe_to_notifications lib subscription w).2 in
  notifications (db w') = notifications (db w)
  /\ emergency_status_updates (db w') = emergency_status_updates (db w)
  /\ emergencies (db w') = emergencies (db w).
Proof.
  unfold subscribe_to_notifications, Session.get_db, Session.add,
    Session.commit.
  simpl. run_M. unfold uuid4, utcnow, Session.insert_subscription. run_M.
  destruct (notification_subscriptions (db w) !! uuid_source lib (draws w));
    simpl; repeat split; reflexivity.
Qed.

Lemma serve_tables (request : Request) (w : World) :
  notifications (db (serve svc lib request w)) = notifications (db w)
  /\ emergency_status_updates (db (serve svc lib request w))
     = emergency_status_updates (db w).
Proof.
  destruct request as [audio text lat lon|emergency_id update|subscription
                      |emergency_id|subscriber_id]; simpl.
  - destruct (report_emergency_run svc lib audio text lat lon w)
      as (r & w' & cs & -> & _ & _ & Hcases). simpl.
    destruct Hcases as [(detail & _ & -> & _)
                       |(d & ty & priority & line & _ & _ & _ & _ & _ & -> & _)];
      split; reflexivity.
  - destruct (update_emergency_cases lib emergency_id update w)
      as (r & w' & -> & _ & Hcases). simpl.
    destruct Hcases as [(e & _ & -> & _)
                       |(row & row' & line & _ & _ & -> & _)];
      split; reflexivity.
  - pose proof (subscribe_tables subscription w) as H. simpl in H. tauto.
  - unfold get_emergency_status, Session.get_db, Session.query_emergency.
    run_M. destruct (emergencies (db w) !! emergency_id); split; reflexivity.
  - split; reflexivity.
Qed.

(** X16: no sequence of requests to the report, update, subscribe and read
    endpoints ever writes a Notification or an EmergencyStatusUpdate: both
    tables are after the requests what they were before. Served from a store
    without notifications, [get_notifications] therefore answers with the
    empty list for every subscriber, whatever was reported, updated or
    subscribed. *)
Theorem no_request_writes_notifications (requests : list Request) (w : World) :
  notifications (db (serve_all svc lib requests w)) = notifications (db w)
  /\ emergency_status_updates (db (serve_all svc lib requests w))
     = emergency_status_updates (db w)
  /\ (notifications (db w) = ∅ ->
      forall subscriber_id,
        (get_notifications subscriber_id (serve_all svc lib requests w)).1
        = inr []).
Proof.
  assert (Hkeep : forall rs w0,
    notifications (db (serve_all svc lib rs w0)) = notifications (db w0)
    /\ emergency_status_updates (db (serve_all svc lib rs w0))
       = emergency_status_updates (db w0)).
  { induction rs as [|request rs IH]; intros w0; [by split |].
    unfold serve_all in *. simpl.
    destruct (IH (serve svc lib request w0)) as [-> ->].
    apply serve_tables. }
  destruct (Hkeep requests w) as [Hn Hu].
  split; [exact Hn |]. split; [exact Hu |].
  intros Hempty subscriber_id.
  unfold get_notifications, Session.get_db, notifications_of. simpl.
  rewrite Hn, Hempty, map_to_list_empty. reflexivity.
Qed.

Ltac quiet_stage :=
  repeat first
    [ apply outcome_ret; exact I
    | apply outcome_raise; exact I
    | apply outcome_transcribe; intros []
    | apply outcome_detect_language; intros []
    | apply outcome_translate; intros []
    | apply outcome_classify; intros []
    | match goal with
      | |- Effects.outcome _ _ (if ?c then _ else _) => destruct c
      end
    | eapply (outcome_bind (fun _ => True)); [ | intros ? _ | intros; exact I ] ].

(** X17: the location of a report needs both coordinates. With the
    latitude or the longitude missing, no Apify actor is called, so the
    record has neither location nor context, although a coordinate that was
    given is still stored in the row. *)
Theorem one_coordinate_gives_no_enrichment
    (audio : option UploadFile) (text : option string) (lat lon : option float)
    (w : World) :
  lat = None \/ lon = None ->
  exists r w' cs,
    report_emergency svc lib audio text lat lon w = (r, w')
    /\ calls w' = (calls w ++ cs)%list
    /\ Forall (fun c => ~ actor_only c) cs
    /\ (forall answer, r = inr answer ->
          exists row plan details,
            emergencies (db w') !! uuid_source lib (draws w) = Some row
            /\ Emergency.location_lat row = lat
            /\ Emergency.location_lon row = lon
            /\ Emergency.response_plan row = PyDict plan
            /\ plan !! "details" = Some (PyDict details)
            /\ details !! "location" = Some PyNone
            /\ details !! "context" = Some PyNone).
Proof.
  intros Hmissing.
  assert (Hloc : Reading.location_of lat lon = None)
    by (destruct Hmissing as [-> | ->]; [| destruct lat]; reflexivity).
  set (shape := fun v : pyval => exists plan details,
         v = PyDict plan /\ plan !! "details" = Some (PyDict details)
         /\ details !! "location" = Some PyNone
         /\ details !! "context" = Some PyNone).
  assert (Hout : outcome
            (fun r => match r with inr v => shape v | inl _ => True end)
            (fun c => ~ actor_only c)
            (EmergencyCoordinator.process_emergency svc lib text
               (read <$> audio) None)).
  { unfold EmergencyCoordinator.process_emergency. simpl.
    eapply (outcome_try
              (fun r => match r with inr v => shape v | inl _ => True end)).
    - do 5 (eapply (outcome_bind (fun _ => True));
              [ solve [quiet_stage] | intros ? _ | intros; exact I ]).
      eapply (outcome_bind (fun r => r = inr PyNone));
        [ exists (inr PyNone), []; split; [apply only_calls_ret |];
          split; [reflexivity | constructor]
        | intros context [= ->] | intros; exact I ].
      apply outcome_ret. unfold shape. do 2 eexists.
      split; [reflexivity |]. split; [reflexivity |]. split; reflexivity.
    - auto.
    - intros e _. by apply outcome_raise. }
  destruct Hout as (r0 & cs0 & Honly & HR & Hcs0).
  destruct (report_emergency_run svc lib audio text lat lon w)
    as (r & w' & cs & Hrun & Hcalls & Hcs & Hcases).
  rewrite Hloc in Hcs, Hcases.
  exists r, w', cs. split; [exact Hrun |]. split; [exact Hcalls |].
  assert (Hsame : forall r1, only_calls
            (EmergencyCoordinator.process_emergency svc lib text
               (read <$> audio) None) r1 cs -> r1 = r0 /\ cs = cs0).
  { intros r1 H1. pose proof (H1 Scenario.world0) as E.
    rewrite (Honly Scenario.world0) in E.
    split; [congruence |].
    apply (f_equal (fun p => calls p.2)) in E. simpl in E. congruence. }
  split.
  - destruct Hcs as [-> | [r1 H1]]; [constructor |].
    destruct (Hsame r1 H1) as [_ ->]. exact Hcs0.
  - intros answer ->.
    destruct Hcases as [(detail & [=] & _)
                       |(d & ty & priority & line & H1 & _ & _ & _ & _ & Hdb & _)].
    destruct (Hsame _ H1) as [<- _]. destruct HR as (plan & details & [= ->] & H).
    rewrite Hdb. simpl. rewrite lookup_insert_eq.
    eexists _, plan, details. split; [reflexivity |]. simpl. tauto.
Qed.

End Invariant.

(** ** The actors the enrichment calls *)

Section ContextCalls.

Import Effects ApifyDataCollector Reading.

Variable svc : Services.
Variable lib : Library.

(** A sub-query that calls one actor and falls back to a default. *)
Lemma one_call_then_default {A} (m : M A) (d : A) (c : Call) :
  (exists r cs, only_calls m r ([c] ++ cs)%list /\ Forall (fun _ => False) cs) ->
  exists v, only_calls (try_except m (fun _ => mret d)) (inr v) [c].
Proof.
  intros (r & cs & Hm & Hcs).
  destruct cs as [|c' cs]; [| by inversion Hcs].
  destruct r as [e|a].
  - exists d. eapply only_calls_calls;
      [ eapply only_calls_try_err; [exact Hm | apply only_calls_ret] | reflexivity ].
  - exists a. by apply only_calls_try_ok.
Qed.

Ltac one_call :=
  apply one_call_then_default;
  do 2 (eapply after_bind_ret; [apply only_calls_lift | cbv beta]);
  eapply after_bind_any; [by apply only_calls_actor_call |];
  intros run _; apply after_outcome; effects.

Section Located.

Variables (location lat lon : pyval).
Hypothesis Hlat : getitem location "lat" = inr lat.
Hypothesis Hlon : getitem location "lon" = inr lon.

Lemma weather_one_call :
  exists v, only_calls (_get_weather_data svc location) (inr v)
              [CallActor "apify/weather" (PyDict {[ "lat" := lat; "lon" := lon ]})].
Proof. unfold _get_weather_data. rewrite Hlat, Hlon. one_call. Qed.

Lemma traffic_one_call :
  exists v, only_calls (_get_traffic_data svc location) (inr v)
              [CallActor "apify/traffic" (around lat lon 2000)].
Proof. unfold _get_traffic_data, around. rewrite Hlat, Hlon. one_call. Qed.

Lemma stations_one_call actor :
  exists v, only_calls (_get_stations svc actor location) (inr v)
              [CallActor actor (around lat lon 5000)].
Proof. unfold _get_stations, around. rewrite Hlat, Hlon. one_call. Qed.

Lemma facilities_calls emergency_type :
  exists fv,
    only_calls (_get_facilities_data svc location emergency_type) (inr fv)
      (match facility_of emergency_type with
       | Some (actor, _) => [CallActor actor (around lat lon 5000)]
       | None => []
       end)
    /\ dom fv = match facility_of emergency_type with
                | Some (_, key) => {[ key ]}
                | None => (∅ : gset string)
                end.
Proof.
  unfold _get_facilities_data, _get_hospitals, _get_fire_stations,
    _get_police_stations, facility_of.
  destruct (String.eqb emergency_type "MEDICAL");
    [ destruct (stations_one_call "apify/hospitals") as [v Hv]
    | destruct (String.eqb emergency_type "FIRE");
      [ destruct (stations_one_call "apify/fire-stations") as [v Hv]
      | destruct (String.eqb emergency_type "POLICE");
        [ destruct (stations_one_call "apify/police-stations") as [v Hv] | ] ] ].
  1-3: eexists; split;
       [ apply only_calls_try_ok;
         by apply (only_calls_bind_ret _ (fun x => {[ _ := x ]}))
       | by rewrite dom_singleton_L ].
  exists ∅. split; [apply only_calls_try_ok; apply only_calls_ret |].
  by rewrite dom_empty_L.
Qed.

(** X18: for a location with both coordinates, [get_emergency_context]
    never raises and calls exactly these actors, in this order: the weather
    actor at the point, the traffic actor within 2000 around it and, for a
    MEDICAL, FIRE or POLICE emergency, the one facility actor of that type
    within 5000; any other type calls no facility actor. The keys of the
    context are weather, traffic and the key of that facility search. *)
Theorem context_calls_by_type (emergency_type : string) :
  exists ctx,
    only_calls (get_emergency_context svc lib location emergency_type)
      (inr (PyDict ctx))
      ([ CallActor "apify/weather" (PyDict {[ "lat" := lat; "lon" := lon ]});
         CallActor "apify/traffic" (around lat lon 2000) ]
       ++ match facility_of emergency_type with
          | Some (actor, _) => [CallActor actor (around lat lon 5000)]
          | None => []
          end)%list
    /\ dom ctx = {[ "weather"; "traffic" ]}
                 ∪ match facility_of emergency_type with
                   | Some (_, key) => {[ key ]}
                   | None => (∅ : gset string)
                   end.
Proof.
  destruct weather_one_call as [wv Hw].
  destruct traffic_one_call as [tv Ht].
  destruct (facilities_calls emergency_type) as (fv & Hf & Hdom).
  exists (fv ∪ {[ "weather" := wv; "traffic" := tv ]}). split.
  - eapply only_calls_calls; [exact (context_run lib _ _ _ _ _ _ _ _ _ Hw Ht Hf) |].
    simpl. by rewrite app_nil_r.
  - rewrite dom_union_L, Hdom, dom_insert_L, dom_singleton_L.
    apply set_eq. intros key. rewrite !elem_of_union. tauto.
Qed.

End Located.

Lemma no_call_then_default {A} (m : M A) (d : A) e :
  only_calls m (inl e) [] ->
  only_calls (try_except m (fun _ => mret d)) (inr d) [].
Proof.
  intros Hm. eapply only_calls_calls;
    [ eapply only_calls_try_err; [exact Hm | apply only_calls_ret] | reflexivity ].
Qed.

Ltac no_call :=
  match goal with
  | H : _ \/ _ |- _ =>
      destruct (getitem _ "lat") as [?|?];
        [ eapply no_call_then_default; exec |];
      destruct (getitem _ "lon") as [?|?];
        [ eapply no_call_then_default; exec |];
      exfalso; destruct H as [[? ?]|[? ?]]; discriminate
  end.

(** X19: a location that lacks a coordinate costs no actor call. Every
    sub-query fails at the lookup of the coordinate, before its actor is
    called, and falls back to its default: [get_emergency_context] returns
    the default weather and traffic, and an empty facility list for a
    MEDICAL, FIRE or POLICE emergency, without raising. *)
Theorem context_without_coordinates (location : pyval) (emergency_type : string) :
  (exists e, getitem location "lat" = inl e)
  \/ (exists e, getitem location "lon" = inl e) ->
  only_calls (get_emergency_context svc lib location emergency_type)
    (inr (PyDict
       (match facility_of emergency_type with
        | Some (_, key) => {[ key := PyList [] ]}
        | None => ∅
        end ∪ {[ "weather" := weather_default; "traffic" := traffic_default ]})))
    [].
Proof.
  intros Hmissing.
  assert (Hw : only_calls (_get_weather_data svc location) (inr weather_default) [])
    by (unfold _get_weather_data; no_call).
  assert (Ht : only_calls (_get_traffic_data svc location) (inr traffic_default) [])
    by (unfold _get_traffic_data; no_call).
  assert (Hs : forall actor,
             only_calls (_get_stations svc actor location) (inr (PyList [])) [])
    by (intros actor; unfold _get_stations; no_call).
  assert (Hf : only_calls (_get_facilities_data svc location emergency_type)
                 (inr match facility_of emergency_type with
                      | Some (_, key) => {[ key := PyList [] ]}
                      | None => ∅
                      end) []).
  { unfold _get_facilities_data, _get_hospitals, _get_fire_stations,
      _get_police_stations, facility_of.
    destruct (String.eqb emergency_type "MEDICAL");
      [| destruct (String.eqb emergency_type "FIRE");
         [| destruct (String.eqb emergency_type "POLICE") ] ].
    1-3: apply only_calls_try_ok;
         by apply (only_calls_bind_ret _ (fun x => {[ _ := x ]})).
    apply only_calls_try_ok; apply only_calls_ret. }
  exact (context_run lib _ _ _ _ _ _ _ _ _ Hw Ht Hf).
Qed.

End ContextCalls.

(** ** The formatting helpers of the collector *)

Section Formatting.

Import ApifyFormat.

(** X20: [_process_hospital_data] keeps the number and the order of the
    items, gives every item exactly the six keys name, address, phone,
    rating, distance and emergency (dropping every other key), and is
    idempotent: formatting a formatted list changes nothing, since the
    defaults it fills in are the values it reads back. *)
Theorem process_hospital_data_idempotent (items : list (gmap string pyval)) :
  length (_process_hospital_data items) = length items
  /\ Forall (fun item =>
       dom item
       = ({[ "name"; "address"; "phone"; "rating"; "distance"; "emergency" ]}
          : gset string))
       (_process_hospital_data items)
  /\ _process_hospital_data (_process_hospital_data items)
     = _process_hospital_data items.
Proof.
  unfold _process_hospital_data. split; [apply length_fmap |]. split.
  - apply Forall_fmap, Forall_true. intros item. simpl.
    rewrite !dom_insert_L, dom_singleton_L. set_solver.
  - rewrite <- list_fmap_compose. apply list_fmap_ext. intros _ item _.
    reflexivity.
Qed.

(** X21: the two single-record helpers treat an empty actor result
    differently. [_process_traffic_data] raises IndexError exactly on the
    empty list, while [_process_weather_data] never raises and answers the
    empty list, and only it, with a status entry; on a non-empty list both
    read the first item only and return a fixed set of keys. *)
Theorem traffic_needs_an_item_weather_does_not
    (timestamp : string) (items : list (gmap string pyval)) :
  (_process_traffic_data timestamp items = inl IndexError <-> items = [])
  /\ (is_Some (_process_weather_data timestamp items !! "status")
      <-> items = [])
  /\ (forall first rest, items = first :: rest ->
        _process_traffic_data timestamp items
        = _process_traffic_data timestamp [first]
        /\ _process_weather_data timestamp items
           = _process_weather_data timestamp [first]
        /\ (exists traffic,
              _process_traffic_data timestamp items = inr traffic
              /\ dom traffic
                 = ({[ "congestion_level"; "incidents"; "average_speed";
                       "timestamp" ]} : gset string))
        /\ dom (_process_weather_data timestamp items)
           = ({[ "temperature"; "conditions"; "visibility"; "wind_speed";
                 "precipitation"; "timestamp" ]} : gset string)).
Proof.
  split; [| split].
  - destruct items; simpl; split; congruence.
  - destruct items; simpl.
    + split; [done | intros _; by eexists].
    + split; [| done]. intros [v Hv]. exfalso. revert Hv.
      by vm_compute.
  - intros first rest ->. simpl. split; [done |]. split; [done |]. split.
    + eexists. split; [reflexivity |].
      rewrite !dom_insert_L, dom_singleton_L. set_solver.
    + rewrite !dom_insert_L, dom_singleton_L. set_solver.
Qed.

End Formatting.

(** ** The endpoints and the enrichment on concrete requests *)

Lemma successful_report_adds_one_active_emergency_witness :
  Main.report_emergency Scenario.svc Scenario.lib None
    (Some "Fire in the kitchen") None None Scenario.world0
  = (inr Cases.answer1, Scenario.world1)
  /\ exists row plan,
    emergencies (db Scenario.world0) !! 0%N = None
    /\ db Scenario.world1 = Session.put_emergency 0%N row (db Scenario.world0)
    /\ getitem Cases.answer1 "response_plan" = inr plan
    /\ Emergency.response_plan row = plan
    /\ getitem Cases.answer1 "emergency_type" = inr (Emergency.emergency_type row)
    /\ getitem Cases.answer1 "priority_level" = inr (Emergency.priority_level row)
    /\ Emergency.status row = "ACTIVE"
    /\ Emergency.location_lat row = None /\ Emergency.location_lon row = None
    /\ Emergency.notes row = None
    /\ Emergency.actual_response_time row = None
    /\ Emergency.created_at row = Some 0.
Proof.
  split; [vm_compute; reflexivity |].
  apply (successful_report_adds_one_active_emergency Scenario.svc Scenario.lib
           None (Some "Fire in the kitchen") None None Scenario.world0
           Scenario.world1 Cases.answer1).
  vm_compute. reflexivity.
Defined.

Lemma reported_emergency_can_be_read_witness :
  Main.report_emergency Scenario.svc Scenario.lib None
    (Some "Fire in the kitchen") None None Scenario.world0
  = (inr Cases.answer1, Scenario.world1)
  /\ exists view w'',
    MainQueries.get_emergency_status 0%N Scenario.world1 = (inr view, w'')
    /\ db w'' = db Scenario.world1
    /\ MainQueries.v_id view = 0%N
    /\ MainQueries.v_status view = "ACTIVE"
    /\ getitem Cases.answer1 "response_plan"
       = inr (MainQueries.v_response_plan view)
    /\ getitem Cases.answer1 "emergency_type"
       = inr (MainQueries.v_emergency_type view)
    /\ getitem Cases.answer1 "priority_level"
       = inr (MainQueries.v_priority_level view)
    /\ MainQueries.v_actual_response_time view = None
    /\ MainQueries.v_created_at view = Some 0.
Proof.
  split; [vm_compute; reflexivity |].
  apply (reported_emergency_can_be_read Scenario.svc Scenario.lib
           None (Some "Fire in the kitchen") None None Scenario.world0
           Scenario.world1 Cases.answer1).
  vm_compute. reflexivity.
Defined.

Lemma update_touches_one_row_witness :
  Main.update_emergency Scenario.lib 0%N
    (Main.mkEmergencyUpdate CANCELLED None) Scenario.world1
  = (inr (PyDict {[ "message" := PyStr "Emergency updated successfully" ]}),
     Scenario.world2)
  /\ exists row row' line,
    emergencies (db Scenario.world1) !! 0%N = Some row
    /\ emergencies (db Scenario.world2) !! 0%N = Some row'
    /\ (forall other, other <> 0%N ->
          emergencies (db Scenario.world2) !! other
          = emergencies (db Scenario.world1) !! other)
    /\ emergency_status_updates (db Scenario.world2)
       = emergency_status_updates (db Scenario.world1)
    /\ notifications (db Scenario.world2) = notifications (db Scenario.world1)
    /\ notification_subscriptions (db Scenario.world2)
       = notification_subscriptions (db Scenario.world1)
    /\ stdout Scenario.world2 = (stdout Scenario.world1 ++ [line])%list
    /\ Emergency.emergency_type row' = Emergency.emergency_type row
    /\ Emergency.priority_level row' = Emergency.priority_level row
    /\ Emergency.location_lat row' = Emergency.location_lat row
    /\ Emergency.location_lon row' = Emergency.location_lon row
    /\ Emergency.response_plan row' = Emergency.response_plan row
    /\ Emergency.created_at row' = Emergency.created_at row
    /\ Emergency.updated_at row'
       = Some (clock Scenario.lib (ticks Scenario.world1)).
Proof.
  split; [vm_compute; reflexivity |].
  apply (update_touches_one_row Scenario.lib 0%N
           (Main.mkEmergencyUpdate CANCELLED None) Scenario.world1
           Scenario.world2
           (PyDict {[ "message" := PyStr "Emergency updated successfully" ]})).
  vm_compute. reflexivity.
Defined.

Lemma unknown_emergency_is_404_witness :
  emergencies (db Scenario.world1) !! 7%N = None
  /\ exists w1 w2,
    Main.update_emergency Scenario.lib 7%N
      (Main.mkEmergencyUpdate RESOLVED None) Scenario.world1
    = (inl (HTTPException 404 "Emergency not found"), w1)
    /\ MainQueries.get_emergency_status 7%N Scenario.world1
       = (inl (HTTPException 404 "Emergency not found"), w2)
    /\ db w1 = db Scenario.world1 /\ stdout w1 = stdout Scenario.world1
    /\ calls w1 = calls Scenario.world1
    /\ db w2 = db Scenario.world1 /\ stdout w2 = stdout Scenario.world1
    /\ calls w2 = calls Scenario.world1.
Proof.
  split; [vm_compute; reflexivity |].
  apply (unknown_emergency_is_404 Scenario.lib 7%N
           (Main.mkEmergencyUpdate RESOLVED None) Scenario.world1).
  vm_compute. reflexivity.
Defined.

Lemma identical_subscriptions_accumulate_witness :
  notification_subscriptions (db Scenario.world0) !! 0%N = None
  /\ notification_subscriptions (db Scenario.world0) !! 1%N = None
  /\ 0%N <> 1%N
  /\ exists w1 w2,
    Main.subscribe_to_notifications Scenario.lib Cases.unit7 Scenario.world0
    = (inr (PyDict {[ "message" := PyStr "Subscription created successfully" ]}),
       w1)
    /\ Main.subscribe_to_notifications Scenario.lib Cases.unit7 w1
       = (inr (PyDict {[ "message" := PyStr "Subscription created successfully" ]}),
          w2)
    /\ db w1 = Session.put_subscription 0%N
                 (NotificationSubscription.mk "service" "unit-7" "emergency"
                    "websocket" (Some 0))
                 (db Scenario.world0)
    /\ db w2 = Session.put_subscription 1%N
                 (NotificationSubscription.mk "service" "unit-7" "emergency"
                    "websocket" (Some 150000000))
                 (db w1).
Proof.
  split; [vm_compute; reflexivity |].
  split; [vm_compute; reflexivity |].
  split; [discriminate |].
  apply (identical_subscriptions_accumulate Scenario.lib Cases.unit7
           Scenario.world0).
  - vm_compute. reflexivity.
  - vm_compute. reflexivity.
  - discriminate.
Defined.

Lemma one_coordinate_gives_no_enrichment_witness :
  (Some 40.7128%float = None \/ @None float = None)
  /\ exists r w' cs,
    Main.report_emergency Scenario.svc_actors Scenario.lib None
      (Some "Fire in the kitchen") (Some 40.7128%float) None Scenario.world0
    = (r, w')
    /\ calls w' = (calls Scenario.world0 ++ cs)%list
    /\ Forall (fun c => ~ Effects.actor_only c) cs
    /\ (forall answer, r = inr answer ->
          exists row plan details,
            emergencies (db w') !! 0%N = Some row
            /\ Emergency.location_lat row = Some 40.7128%float
            /\ Emergency.location_lon row = None
            /\ Emergency.response_plan row = PyDict plan
            /\ plan !! "details" = Some (PyDict details)
            /\ details !! "location" = Some PyNone
            /\ details !! "context" = Some PyNone).
Proof.
  split; [by right |].
  apply (one_coordinate_gives_no_enrichment Scenario.svc_actors Scenario.lib
           None (Some "Fire in the kitchen") (Some 40.7128%float) None
           Scenario.world0).
  by right.
Defined.

(** That report succeeds: the latitude is stored, the plan has no context. *)
Example half_located_report :
  exists answer, Cases.half_located.1 = inr answer
  /\ calls Cases.half_located.2
     = [CallDetectLanguage "Fire in the kitchen";
        CallClassify "Fire in the kitchen"].
Proof. eexists. split; vm_compute; reflexivity. Qed.

Lemma context_calls_by_type_witness :
  getitem Scenario.here "lat" = inr (PyFloat 40.7128%float)
  /\ getitem Scenario.here "lon" = inr (PyFloat (-74.006)%float)
  /\ exists ctx,
    Effects.only_calls
      (ApifyDataCollector.get_emergency_context Scenario.svc_actors
         Scenario.lib Scenario.here "FIRE")
      (inr (PyDict ctx))
      ([ CallActor "apify/weather"
           (PyDict {[ "lat" := PyFloat 40.7128%float;
                      "lon" := PyFloat (-74.006)%float ]});
         CallActor "apify/traffic"
           (Reading.around (PyFloat 40.7128%float) (PyFloat (-74.006)%float)
              2000) ]
       ++ match Reading.facility_of "FIRE" with
          | Some (actor, _) =>
              [CallActor actor
                 (Reading.around (PyFloat 40.7128%float)
                    (PyFloat (-74.006)%float) 5000)]
          | None => []
          end)%list
    /\ dom ctx = {[ "weather"; "traffic" ]}
                 ∪ match Reading.facility_of "FIRE" with
                   | Some (_, key) => {[ key ]}
                   | None => (∅ : gset string)
                   end.
Proof.
  split; [vm_compute; reflexivity |].
  split; [vm_compute; reflexivity |].
  apply (context_calls_by_type Scenario.svc_actors Scenario.lib Scenario.here
           (PyFloat 40.7128%float) (PyFloat (-74.006)%float)).
  - vm_compute. reflexivity.
  - vm_compute. reflexivity.
Defined.

Lemma context_without_coordinates_witness :
  ((exists e, getitem Cases.no_longitude "lat" = inl e)
   \/ (exists e, getitem Cases.no_longitude "lon" = inl e))
  /\ Effects.only_calls
       (ApifyDataCollector.get_emergency_context Scenario.svc_actors
          Scenario.lib Cases.no_longitude "MEDICAL")
       (inr (PyDict
          (match Reading.facility_of "MEDICAL" with
           | Some (_, key) => {[ key := PyList [] ]}
           | None => ∅
           end ∪ {[ "weather" := ApifyDataCollector.weather_default;
                    "traffic" := ApifyDataCollector.traffic_default ]})))
       [].
Proof.
  assert (Hmissing : (exists e, getitem Cases.no_longitude "lat" = inl e)
                     \/ (exists e, getitem Cases.no_longitude "lon" = inl e))
    by (right; eexists; vm_compute; reflexivity).
  split; [exact Hmissing |].
  exact (context_without_coordinates Scenario.svc_actors Scenario.lib
           Cases.no_longitude "MEDICAL" Hmissing).
Defined.
